(** * Gauss-Newton / Levenberg-Marquardt outer iteration of optimistix

    A shallow embedding of
    [optimistix/_solver/levenberg_marquardt_gauss_newton.py]: the state
    record [_GNState] and the three methods [init], [step] and [terminate]
    of [AbstractGaussNewton], followed by the properties of the outer
    iteration state machine.

    Conventions of the embedding.
    - An integer scalar has the default integer dtype of JAX, [int32]:
      a 32-bit two's complement integer, written as a [Z] with its
      wrap-around spelled out ([wrap_int]).  A floating point scalar is
      a [float] of binary64 precision.
    - A PyTree is a finitely branching tree: a [Node] is a Python
      container (a tuple or a list) and a [Leaf] is an array of shape
      [()], a scalar.  Arrays of other shapes, which the leafwise
      operations of JAX broadcast against each other, are not in the
      embedding.
    - A Python exception is a value of [exn]; a call that can raise has
      its result in [outcome].
    - The collaborators (residual function, descent, line search, norm,
      Jacobian evaluation) are arbitrary total functions, bundled in
      records; what a collaborator raises by itself is not in the
      embedding. *)

From Stdlib Require Import ZArith PrimFloat Lia.
From Stdlib Require Import Floats.
From stdpp Require Import base option list strings gmap.

#[local] Open Scope Z_scope.

(** ** PyTrees *)

#[local] Unset Elimination Schemes.

Inductive PyTree (A : Type) : Type :=
| Leaf (a : A)
| Node (children : list (PyTree A)).

#[local] Set Elimination Schemes.

Arguments Leaf {A} a.
Arguments Node {A} children.

(** Induction over a PyTree, the children of a node being covered by
    [Forall]. *)
Section PyTreeInd.
Context {A : Type} (P : PyTree A -> Prop).
Hypothesis HLeaf : forall a, P (Leaf a).
Hypothesis HNode : forall cs, Forall P cs -> P (Node cs).

Fixpoint PyTree_ind (t : PyTree A) : P t :=
  match t with
  | Leaf a => HLeaf a
  | Node cs =>
      HNode cs
        ((fix children_ok (l : list (PyTree A)) : Forall P l :=
            match l with
            | [] => @List.Forall_nil _ P
            | c :: l' => @List.Forall_cons _ P c l' (PyTree_ind c) (children_ok l')
            end) cs)
  end.
End PyTreeInd.

(** [jtu.tree_map f t] with one tree. *)
Fixpoint tree_map {A B : Type} (f : A -> B) (t : PyTree A) : PyTree B :=
  match t with
  | Leaf a => Leaf (f a)
  | Node cs => Node (map (tree_map f) cs)
  end.

(** [jtu.tree_leaves t]. *)
Fixpoint tree_leaves {A : Type} (t : PyTree A) : list A :=
  match t with
  | Leaf a => [a]
  | Node cs => concat (map tree_leaves cs)
  end.

(** ** Result codes and exceptions *)

(** Modelled from the spec: the enumeration [RESULTS] of [_solution.py],
    with the three result kinds of the error taxonomy: normal progress,
    a failed inner linear solve, and an inner iteration that used up its
    steps. *)
Inductive RESULTS : Type :=
| successful
| linear_solve_failure
| inner_iteration_exhausted.

(** [r1 == r2] on result codes. *)
Definition RESULTS_eqb (r1 r2 : RESULTS) : bool :=
  match r1, r2 with
  | successful, successful
  | linear_solve_failure, linear_solve_failure
  | inner_iteration_exhausted, inner_iteration_exhausted => true
  | _, _ => false
  end.

(** [jnp.where(pred, x, y)] with a scalar predicate. *)
Definition jnp_where {A : Type} (pred : bool) (x y : A) : A :=
  if pred then x else y.

(** [RESULTS.where(pred, r1, r2)]. *)
Definition RESULTS_where (pred : bool) (r1 r2 : RESULTS) : RESULTS :=
  jnp_where pred r1 r2.

(** The Python exceptions of the embedded code itself.  On the scalar
    leaves of the embedding the leafwise operations never meet
    incompatible shapes, so that the only exception of a tree operation
    is that of [jtu.tree_map] on trees of different structure. *)
Inductive exn : Type :=
| ValueError                  (* [jtu.tree_map] over trees of different structure *)
| RuntimeError (r : RESULTS). (* a failed solve under [throw=True] *)

(** The outcome of a Python call: a value, or a raised exception. *)
Inductive outcome (A : Type) : Type :=
| Returned (a : A)
| Raised (e : exn).

Arguments Returned {A} a.
Arguments Raised {A} e.

#[export] Instance outcome_ret : MRet outcome := fun A a => Returned a.
#[export] Instance outcome_bind : MBind outcome := fun A B k m =>
  match m with
  | Returned a => k a
  | Raised e => Raised e
  end.

(** ** Operations on PyTrees *)

(** The children of two containers, pairwise; containers of different
    lengths are the structure mismatch that [jtu.tree_map] reports. *)
Section Children.
Context {A B C : Type} (f : A -> B -> outcome C).

Fixpoint children_map2 (cs : list A) (ds : list B) : outcome (list C) :=
  match cs, ds with
  | [], [] => Returned []
  | c :: cs', d :: ds' =>
      match f c d, children_map2 cs' ds' with
      | Returned x, Returned xs => Returned (x :: xs)
      | Raised e, _ => Raised e
      | _, Raised e => Raised e
      end
  | _, _ => Raised ValueError
  end.
End Children.

(** [jtu.tree_map f s t] with two trees of scalar leaves; a
    [ValueError] is raised when the second tree has not the structure
    (the containers, and the leaves in them) of the first. *)
Fixpoint tree_map2 {A B C : Type} (f : A -> B -> C)
    (s : PyTree A) (t : PyTree B) : outcome (PyTree C) :=
  match s, t with
  | Leaf a, Leaf b => Returned (Leaf (f a b))
  | Node cs, Node ds =>
      match children_map2 (tree_map2 f) cs ds with
      | Returned xs => Returned (Node xs)
      | Raised e => Raised e
      end
  | _, _ => Raised ValueError
  end.

(** The shape and dtype of a scalar leaf, [jax.ShapeDtypeStruct]. *)
Inductive ShapeDtypeStruct : Type := float64_scalar.

(** [(ω(s) + ω(t)).ω] *)
Definition tree_add (s t : PyTree float) : outcome (PyTree float) :=
  tree_map2 PrimFloat.add s t.

(** [(ω(s) / ω(t)).ω] *)
Definition tree_div (s t : PyTree float) : outcome (PyTree float) :=
  tree_map2 PrimFloat.div s t.

(** Modelled from the spec: [tree_zeros] of [_misc.py], the zero-filled
    tree of a tree of structural descriptors. *)
Definition tree_zeros (struct : PyTree ShapeDtypeStruct) : PyTree float :=
  tree_map (fun _ => zero) struct.

(** Modelled from the spec: [tree_full_like] of [_misc.py], the tree of
    the structure of [t] with every leaf set to [fill_value]. *)
Definition tree_full_like (t : PyTree float) (fill_value : float) : PyTree float :=
  tree_map (fun _ => fill_value) t.

(** Modelled from the spec: [tree_where] of [_misc.py], the leafwise
    [jnp.where] of two trees under one scalar predicate. *)
Definition tree_where (pred : bool) (true_ false_ : PyTree float) : outcome (PyTree float) :=
  tree_map2 (jnp_where pred) true_ false_.

(** Modelled from the spec: [sum_squares] of [_misc.py], the sum of the
    squared leaves of the residual. *)
Definition sum_squares (residual : PyTree float) : float :=
  fold_left (fun acc r => (acc + r * r)%float) (tree_leaves residual) zero.

(** An integer scalar of the default dtype [int32]: the value of [z]
    after wrap-around. *)
Definition wrap_int (z : Z) : Z := (z + 2 ^ 31) mod 2 ^ 32 - 2 ^ 31.

(** ** Data of the least-squares problem *)

(** The parameter [y], the residual, the auxiliary output and the
    arguments [args] are PyTrees of floating point leaves. *)
Abbreviation Y := (PyTree float) (only parsing).
Abbreviation Out := (PyTree float) (only parsing).
Abbreviation Aux := (PyTree float) (only parsing).
Abbreviation Args := (PyTree float) (only parsing).

(** The residual function, [Fn[Y, Out, Aux]]. *)
Abbreviation Fn := (PyTree float -> PyTree float -> PyTree float * PyTree float)
  (only parsing).

(** [lx.JacobianLinearOperator(fn, x, args, _has_aux=True)]: the Jacobian
    of [fn] at [x], kept as the function and the point.  The leaves are
    of type [L]: floats for an operator, structural descriptors for the
    result of [eqx.filter_eval_shape]. *)
Record JacobianLinearOperator (L : Type) : Type := {
  jac_fn : Fn;
  jac_x : PyTree L;
  jac_args : PyTree L;
}.

Arguments jac_fn {L} _.
Arguments jac_x {L} _.
Arguments jac_args {L} _.

(** [eqx.filter_eval_shape(lx.JacobianLinearOperator, fn, y, args,
    _has_aux=True)]: the operator with every array replaced by its
    structural descriptor; nothing is evaluated. *)
Definition filter_eval_shape_operator (fn : Fn) (y : Y) (args : Args)
    : JacobianLinearOperator ShapeDtypeStruct :=
  {| jac_fn := fn;
     jac_x := tree_map (fun _ => float64_scalar) y;
     jac_args := tree_map (fun _ => float64_scalar) args |}.

(** [eqx.partition(operator_struct, _is_struct)]: the leaves that are
    arrays or structural descriptors, and the rest.  The residual
    function is a plain function here, one that holds no arrays of its
    own, and goes to the rest as a whole. *)
Definition partition_operator {L : Type} (operator : JacobianLinearOperator L)
    : (PyTree L * PyTree L) * Fn :=
  ((jac_x operator, jac_args operator), jac_fn operator).

(** [eqx.combine(dynamic_operator, static_operator)]. *)
Definition combine_operator {L : Type} (dynamic : PyTree L * PyTree L) (static : Fn)
    : JacobianLinearOperator L :=
  {| jac_fn := static; jac_x := fst dynamic; jac_args := snd dynamic |}.

(** The values of an options dictionary, [dict[str, Any]]. *)
Inductive OptValue : Type :=
| OScalar (x : float)
| OBool (b : bool)
| OTree (t : PyTree float)
| OOperator (operator : JacobianLinearOperator float)
| OClosure (g : float -> float).

Abbreviation Options := (gmap string OptValue) (only parsing).

(** [tags: frozenset[object]] *)
Abbreviation Tags := (gset string) (only parsing).

(** ** The collaborators *)

Module Descent.
(** Modelled from the spec: the interface [AbstractDescent] of
    [_line_search.py], a descent strategy with its own state
    [DescentState]: [init_state], [update_state], the call that computes
    the displacement for a step-size together with the result of its
    linear solve, and [predicted_reduction]. *)
Record AbstractDescent (DescentState : Type) : Type := {
  init_state :
    Fn -> Y -> Out -> JacobianLinearOperator float ->
    option (JacobianLinearOperator float) -> Args -> Options -> DescentState;
  update_state :
    DescentState -> Y -> Out -> JacobianLinearOperator float ->
    option (JacobianLinearOperator float) -> Options -> DescentState;
  call : float -> DescentState -> Args -> Options -> Y * RESULTS;
  predicted_reduction : float -> DescentState -> Args -> Options -> float;
}.
Arguments init_state {DescentState} _.
Arguments update_state {DescentState} _.
Arguments call {DescentState} _.
Arguments predicted_reduction {DescentState} _.
End Descent.

(** What a step of the line search hands back as auxiliary output: the
    objective value, the displacement, the auxiliary output of the
    residual function, the result of the descent, and the next initial
    step-size. *)
Abbreviation LineAux := (float * PyTree float * PyTree float * RESULTS * float)%type
  (only parsing).

(** Modelled from the spec: [OneDimensionalFunction] of [_line_search.py],
    the one-dimensional sub-problem made of the objective, the descent
    bound to its state, and the parameter [y]. *)
Record OneDimensionalFunction : Type := {
  fn_1d : Y -> Args -> float * Aux;
  descent_1d : float -> Y * RESULTS;
  y_1d : Y;
}.

(** Modelled from the spec: the call of a [OneDimensionalFunction].
    Given a step-size the descent produces a displacement from [y]; the
    function is evaluated at the displaced parameter and gives the
    objective and the auxiliary output. *)
Definition OneDimensionalFunction_call (problem : OneDimensionalFunction)
    (delta : float) (args : Args) : outcome (float * LineAux) :=
  let '(diff, result) := descent_1d problem delta in
  new_y ← tree_add (y_1d problem) diff;
  let '(f_val, aux) := fn_1d problem new_y args in
  mret (f_val, (f_val, diff, aux, result, zero)).

Module LineSearch.
(** Modelled from the spec: the interface [AbstractLineSearch] of
    [_line_search.py], a minimiser over the scalar step-size with its own
    state [LineState], and the method [first_init] that gives the
    step-size with which the first outer iterations start. *)
Record AbstractLineSearch (LineState : Type) : Type := {
  first_init : Out -> JacobianLinearOperator float -> Options -> float;
  init : OneDimensionalFunction -> float -> Args -> Options -> LineState;
  step :
    OneDimensionalFunction -> float -> Args -> Options -> LineState ->
    float * LineState * LineAux;
  terminate :
    OneDimensionalFunction -> float -> Args -> Options -> LineState ->
    bool * RESULTS;
}.
Arguments first_init {LineState} _.
Arguments init {LineState} _.
Arguments step {LineState} _.
Arguments terminate {LineState} _.
End LineSearch.

Module Solution.
(** Modelled from the spec: the [Solution] of [_solution.py] that the
    driver returns. *)
Record Solution (LineState : Type) : Type := {
  value : float;
  result : RESULTS;
  aux : LineAux;
  num_steps : Z;
  state : LineState;
}.
Arguments value {LineState} _.
Arguments result {LineState} _.
Arguments aux {LineState} _.
Arguments num_steps {LineState} _.
Arguments state {LineState} _.
End Solution.

(** The bounded iteration of a line search on a one-dimensional
    sub-problem. *)
Section Minimise.
Context {LineState : Type}.
Context (solver : LineSearch.AbstractLineSearch LineState).
Context (fn : OneDimensionalFunction) (args : Args) (options : Options).

(** Modelled from the spec: the loop of the driver of [_minimise.py].
    The solver is stepped until its own termination test holds or the
    fuel, [max_steps], is used up; the steps are counted. *)
Fixpoint iterate_solve (fuel : nat) (y : float) (state : LineState)
    (aux : LineAux) (num_steps : Z) : float * LineState * LineAux * Z :=
  match fuel with
  | O => (y, state, aux, num_steps)
  | S fuel' =>
      let '(done, _) := LineSearch.terminate solver fn y args options state in
      if done then (y, state, aux, num_steps)
      else
        let '(new_y, new_state, new_aux) :=
          LineSearch.step solver fn y args options state in
        iterate_solve fuel' new_y new_state new_aux (num_steps + 1)
  end.

(** Modelled from the spec: the auxiliary output of the driver before
    the first step, zeros of the structure of the auxiliary output of
    [fn]. *)
Definition init_aux (y0 : float) : outcome LineAux :=
  '(_, (_, diff, aux, _, _)) ← OneDimensionalFunction_call fn y0 args;
  mret (zero, tree_full_like diff zero, tree_full_like aux zero, successful, zero).

(** Modelled from the spec: the driver [minimise] of [_minimise.py], a
    bounded iteration of the solver from the step-size [y0].  Using up
    [max_steps] steps without termination is the result
    [inner_iteration_exhausted]; a result that is not successful is
    raised as an exception only when [throw] is set, and is otherwise
    returned in the solution.  The solver of this file always sets
    [has_aux]: the second output of [fn] is its auxiliary output. *)
Definition minimise (has_aux : bool) (y0 : float) (max_steps : Z) (throw : bool)
    : outcome (Solution.Solution LineState) :=
  aux0 ← init_aux y0;
  let state0 := LineSearch.init solver fn y0 args options in
  let '(y, state, aux, num_steps) :=
    iterate_solve (Z.to_nat max_steps) y0 state0 aux0 0 in
  let '(done, result) := LineSearch.terminate solver fn y args options state in
  let result :=
    RESULTS_where (RESULTS_eqb result successful && negb done)
      inner_iteration_exhausted result in
  if throw && negb (RESULTS_eqb result successful)
  then Raised (RuntimeError result)
  else mret {| Solution.value := y; Solution.result := result;
               Solution.aux := aux; Solution.num_steps := num_steps;
               Solution.state := state |}.
End Minimise.

(** ** The solver state *)

Module GNState.
Record _GNState (DescentState : Type) : Type := {
  descent_state : DescentState;
  vector : Out;
  operator : JacobianLinearOperator float;
  diff : Y;
  result : RESULTS;
  f_val : float;
  f_prev : float;
  next_init : float;
  aux : Aux;
  step : Z;
}.
Arguments descent_state {DescentState} _.
Arguments vector {DescentState} _.
Arguments operator {DescentState} _.
Arguments diff {DescentState} _.
Arguments result {DescentState} _.
Arguments f_val {DescentState} _.
Arguments f_prev {DescentState} _.
Arguments next_init {DescentState} _.
Arguments aux {DescentState} _.
Arguments step {DescentState} _.
End GNState.

Import GNState (_GNState).

(** ** The solver *)

(** The fields of [AbstractGaussNewton]. *)
Record AbstractGaussNewton (DescentState LineState : Type) : Type := {
  rtol : float;
  atol : float;
  line_search : LineSearch.AbstractLineSearch LineState;
  descent : Descent.AbstractDescent DescentState;
  norm : PyTree float -> float;
}.

Arguments rtol {DescentState LineState} _.
Arguments atol {DescentState LineState} _.
Arguments line_search {DescentState LineState} _.
Arguments descent {DescentState LineState} _.
Arguments norm {DescentState LineState} _.

Section Solver.
Context {DescentState LineState : Type}.

(** [compute_jac_residual(fn, y, args)] of [_solver/misc.py], which
    gives the residual, the Jacobian operator and the auxiliary output of
    [fn] at [y]: a parameter of the development. *)
Context (compute_jac_residual :
  Fn -> Y -> Args -> Out * JacobianLinearOperator float * Aux).

Implicit Types (self : AbstractGaussNewton DescentState LineState).
Implicit Types (state : _GNState DescentState).

(** [AbstractGaussNewton.init] *)
Definition init self (fn : Fn) (y : Y) (args : Args) (options : Options)
    (f_struct aux_struct : PyTree ShapeDtypeStruct) (tags : Tags)
    : _GNState DescentState :=
  let f0 := infinity in
  let aux := tree_zeros aux_struct in
  let vector := tree_map (fun x => one) f_struct in
  let operator_struct := filter_eval_shape_operator fn y args in
  let '(dynamic_operator_struct, static_operator) :=
    partition_operator operator_struct in
  let dynamic_operator :=
    (tree_map (fun x => one) (fst dynamic_operator_struct),
     tree_map (fun x => one) (snd dynamic_operator_struct)) in
  let operator := combine_operator dynamic_operator static_operator in
  let descent_state :=
    Descent.init_state (descent self) fn y vector operator None args ∅ in
  {| GNState.descent_state := descent_state;
     GNState.vector := vector;
     GNState.operator := operator;
     GNState.diff := tree_full_like y infinity;
     GNState.result := successful;
     GNState.f_val := f0;
     GNState.f_prev := f0;
     GNState.next_init := one;
     GNState.aux := aux;
     GNState.step := 0 |}.

(** The local function [line_search_fn] of [step]. *)
Definition line_search_fn (fn : Fn) (x : Y) (args : Args) : float * Aux :=
  let '(residual, aux) := fn x args in
  (sum_squares residual, aux).

(** The local value [problem_1d] of [step]; its descent is
    [eqx.Partial(self.descent, descent_state=state.descent_state,
    args=args, options=options)]. *)
Definition problem_1d self (fn : Fn) (y : Y) (args : Args) (options : Options)
    state : OneDimensionalFunction :=
  let descent := fun delta =>
    Descent.call (descent self) delta (GNState.descent_state state) args options in
  {| fn_1d := line_search_fn fn; descent_1d := descent; y_1d := y |}.

(** The local dictionary [line_search_options] of [step]. *)
Definition line_search_options self (y : Y) (args : Args) state : Options :=
  let line_search_options : Options :=
    <["diff" := OTree y]>
    (<["operator" := OOperator (GNState.operator state)]>
    (<["vector" := OTree (GNState.vector state)]>
    (<["compute_f0" := OBool (GNState.step state =? 1)]>
    (<["f0" := OScalar (jnp_where (GNState.step state >? 1)
                          (GNState.f_val state) infinity)]> ∅)))) in
  <["predicted_reduction" :=
      OClosure (fun delta =>
        Descent.predicted_reduction (descent self) delta
          (GNState.descent_state state) args ∅)]> line_search_options.

(** The local value [init] of [step], the first step-size of the line
    search. *)
Definition line_search_init self (options : Options) state : float :=
  jnp_where (GNState.step state <=? 1)
    (LineSearch.first_init (line_search self)
       (GNState.vector state) (GNState.operator state) options)
    (GNState.next_init state).

(** The local value [line_sol] of [step]: the sub-problem
    [fn=problem_1d] is handed to the driver with [has_aux=True],
    [solver=self.line_search], [y0=init], [args=args],
    [options=line_search_options], [max_steps=100] and [throw=False]. *)
Definition line_sol self (fn : Fn) (y : Y) (args : Args) (options : Options)
    state : outcome (Solution.Solution LineState) :=
  minimise (line_search self) (problem_1d self fn y args options state) args
    (line_search_options self y args state) true
    (line_search_init self options state) 100 false.

(** [AbstractGaussNewton.step] *)
Definition step self (fn : Fn) (y : Y) (args : Args) (options : Options)
    state (tags : Tags) : outcome (Y * _GNState DescentState * Aux) :=
  line_sol ← line_sol self fn y args options state;
  let '(f_val, diff, new_aux, _, next_init) := Solution.aux line_sol in
  y_plus_diff ← tree_add y diff;
  new_y ← tree_where (GNState.step state >? 0) y_plus_diff y;
  let '(vector, operator, _) := compute_jac_residual fn new_y args in
  let descent_state :=
    Descent.update_state (descent self)
      (GNState.descent_state state) (GNState.diff state)
      vector operator None options in
  let new_state :=
    {| GNState.descent_state := descent_state;
       GNState.vector := vector;
       GNState.operator := operator;
       GNState.diff := diff;
       GNState.result := successful;
       GNState.f_val := f_val;
       GNState.f_prev := GNState.f_val state;
       GNState.next_init := next_init;
       GNState.aux := new_aux;
       GNState.step := wrap_int (GNState.step state + 1) |} in
  mret (new_y, new_state, GNState.aux state).

(** [AbstractGaussNewton.terminate] *)
Definition terminate self (fn : Fn) (y : Y) (args : Args) (options : Options)
    state (tags : Tags) : outcome (bool * RESULTS) :=
  let at_least_two := GNState.step state >=? 2 in
  let y_scale := tree_map (fun yi => (atol self + rtol self * abs yi)%float) y in
  scaled_diff ← tree_div (GNState.diff state) y_scale;
  let y_converged := (norm self scaled_diff <? 1)%float in
  let f_scale := (rtol self * abs (GNState.f_prev state) + atol self)%float in
  let f_converged :=
    (abs (GNState.f_val state - GNState.f_prev state) / f_scale <? 1)%float in
  let converged := y_converged && f_converged in
  let linsolve_fail := negb (RESULTS_eqb (GNState.result state) successful) in
  let terminate := linsolve_fail || (converged && at_least_two) in
  let result := RESULTS_where linsolve_fail (GNState.result state) successful in
  mret (terminate, result).

(** [AbstractGaussNewton.buffers] *)
Definition buffers state : unit := tt.
End Solver.

(** ** A concrete problem

    The residual [fn(y) = y - 3] on a parameter of one leaf, started at
    [y0 = 0] with [rtol = atol = 1e-6].  The auxiliary output of the
    residual function is the point at which it was evaluated, which makes
    the provenance of every auxiliary output visible.  The strategies are
    small stand-ins for the collaborators: a Newton direction for a
    Jacobian that is the identity, and a line search that accepts its
    first step-size after one evaluation. *)
Module Scenario.

Definition c : float := 3%float.

Definition fn : Fn := fun y args =>
  (tree_map (fun yi => (yi - c)%float) y, y).

Definition y0 : Y := Node [Leaf 0%float].
Definition args : Args := Node [].
Definition options : Options := ∅.
Definition tags : Tags := ∅.
Definition f_struct : PyTree ShapeDtypeStruct := Node [Leaf float64_scalar].
Definition aux_struct : PyTree ShapeDtypeStruct := Node [Leaf float64_scalar].

Definition compute_jac_residual (fn : Fn) (y : Y) (args : Args)
    : Out * JacobianLinearOperator float * Aux :=
  let '(residual, aux) := fn y args in
  (residual, {| jac_fn := fn; jac_x := y; jac_args := args |}, aux).

(** The state of the descent: the last displacement it was told, and
    the residual. *)
Definition newton (status : RESULTS) : Descent.AbstractDescent (Y * Out) := {|
  Descent.init_state := fun fn y vector operator operator_inv args options =>
    (y, vector);
  Descent.update_state := fun descent_state diff vector operator operator_inv options =>
    (diff, vector);
  Descent.call := fun delta descent_state args options =>
    (tree_map (fun r => (- (delta * r))%float) (snd descent_state), status);
  Descent.predicted_reduction := fun delta descent_state args options =>
    (- (delta * sum_squares (snd descent_state)))%float;
|}.

(** One step of the stand-in line search: evaluate the problem at the
    step-size [delta], suggest twice the step-size for the next outer
    step. *)
Definition evaluate_once (problem : OneDimensionalFunction) (delta : float)
    (args : Args) (options : Options) (evaluations : Z)
    : float * Z * LineAux :=
  match OneDimensionalFunction_call problem delta args with
  | Returned (f_val, (f, diff, aux, result, _)) =>
      (delta, evaluations + 1, (f, diff, aux, result, (2 * delta)%float))
  | Raised _ =>
      (delta, evaluations + 1, (nan, Node [], Node [], successful, delta))
  end.

(** The line search stops after [needed] evaluations. *)
Definition learning_rate (needed : Z) : LineSearch.AbstractLineSearch Z := {|
  LineSearch.first_init := fun vector operator options => one;
  LineSearch.init := fun problem y args options => 0;
  LineSearch.step := evaluate_once;
  LineSearch.terminate := fun problem y args options evaluations =>
    (evaluations >=? needed, successful);
|}.

Definition max_abs (t : PyTree float) : float :=
  fold_left (fun acc x => if (acc <? abs x)%float then abs x else acc)
    (tree_leaves t) zero.

Definition solver (status : RESULTS) (needed : Z)
    : AbstractGaussNewton (Y * Out) Z := {|
  rtol := 0x1.0c6f7a0b5ed8dp-20%float;
  atol := 0x1.0c6f7a0b5ed8dp-20%float;
  line_search := learning_rate needed;
  descent := newton status;
  norm := max_abs;
|}.

(** The well-behaved solver, and one whose descent reports a failed
    linear solve and whose line search never stops by itself. *)
Definition gauss_newton := solver successful 1.
Definition failing := solver linear_solve_failure 1000.

Definition state0 := init gauss_newton fn y0 args options f_struct aux_struct tags.

Definition jacobian_at (y : Y) : JacobianLinearOperator float :=
  {| jac_fn := fn; jac_x := y; jac_args := args |}.

(** The states after the first, second and third outer step. *)
Definition state1 : _GNState (Y * Out) :=
  {| GNState.descent_state := (Node [Leaf infinity], Node [Leaf (-3)%float]);
     GNState.vector := Node [Leaf (-3)%float];
     GNState.operator := jacobian_at y0;
     GNState.diff := Node [Leaf (-1)%float];
     GNState.result := successful;
     GNState.f_val := 16%float;
     GNState.f_prev := infinity;
     GNState.next_init := 2%float;
     GNState.aux := Node [Leaf (-1)%float];
     GNState.step := 1 |}.

Definition y2 : Y := Node [Leaf 3%float].

Definition state2 : _GNState (Y * Out) :=
  {| GNState.descent_state := (Node [Leaf (-1)%float], Node [Leaf 0%float]);
     GNState.vector := Node [Leaf 0%float];
     GNState.operator := jacobian_at y2;
     GNState.diff := Node [Leaf 3%float];
     GNState.result := successful;
     GNState.f_val := 0%float;
     GNState.f_prev := 16%float;
     GNState.next_init := 2%float;
     GNState.aux := Node [Leaf 3%float];
     GNState.step := 2 |}.

Definition state3 : _GNState (Y * Out) :=
  {| GNState.descent_state := (Node [Leaf 3%float], Node [Leaf 0%float]);
     GNState.vector := Node [Leaf 0%float];
     GNState.operator := jacobian_at y2;
     GNState.diff := Node [Leaf (-0)%float];
     GNState.result := successful;
     GNState.f_val := 0%float;
     GNState.f_prev := 0%float;
     GNState.next_init := 4%float;
     GNState.aux := Node [Leaf 3%float];
     GNState.step := 3 |}.

(** The solutions of the sub-iterations of the first three outer
    steps, and of the first outer step of the failing solver. *)
Definition sol0 : Solution.Solution Z :=
  {| Solution.value := one;
     Solution.result := successful;
     Solution.aux :=
       (16%float, Node [Leaf (-1)%float], Node [Leaf (-1)%float], successful,
        2%float);
     Solution.num_steps := 1;
     Solution.state := 1 |}.

Definition sol1 : Solution.Solution Z :=
  {| Solution.value := one;
     Solution.result := successful;
     Solution.aux :=
       (0%float, Node [Leaf 3%float], Node [Leaf 3%float], successful, 2%float);
     Solution.num_steps := 1;
     Solution.state := 1 |}.

Definition sol2 : Solution.Solution Z :=
  {| Solution.value := 2%float;
     Solution.result := successful;
     Solution.aux :=
       (0%float, Node [Leaf (-0)%float], Node [Leaf 3%float], successful,
        4%float);
     Solution.num_steps := 1;
     Solution.state := 1 |}.

Definition failing_state0 :=
  init failing fn y0 args options f_struct aux_struct tags.

Definition failing_sol0 : Solution.Solution Z :=
  {| Solution.value := one;
     Solution.result := inner_iteration_exhausted;
     Solution.aux :=
       (16%float, Node [Leaf (-1)%float], Node [Leaf (-1)%float],
        linear_solve_failure, 2%float);
     Solution.num_steps := 100;
     Solution.state := 100 |}.

(** [n] outer steps from the initial state; [None] when one raises. *)
Fixpoint run (self : AbstractGaussNewton (Y * Out) Z) (n : nat)
    : option (Y * _GNState (Y * Out) * list Aux) :=
  match n with
  | O => Some (y0, init self fn y0 args options f_struct aux_struct tags, [])
  | S n' =>
      match run self n' with
      | Some (y, state, trace) =>
          match step compute_jac_residual self fn y args options state tags with
          | Returned (new_y, new_state, aux) => Some (new_y, new_state, trace ++ [aux])
          | Raised _ => None
          end
      | None => None
      end
  end.
End Scenario.

(** ** The structure of a PyTree *)

(** [jtu.tree_structure t]: the tree without the values of its leaves. *)
Definition tree_structure {A : Type} (t : PyTree A) : PyTree unit :=
  tree_map (fun _ => tt) t.

(** ** The solver variants *)

Section Variants.
Context {NewtonState DirectState IndirectState : Type}.
Context {LearningState TrustState : Type}.

(** The strategies of [descent.py], [iterative_dual.py],
    [learning_rate.py] and [trust_region.py] with the arguments that the
    variants give them, and [max_norm] of [_misc.py]: parameters of the
    development. *)
Context (UnnormalisedNewton : bool -> Descent.AbstractDescent NewtonState).
Context (DirectIterativeDual : bool -> Descent.AbstractDescent DirectState).
Context (IndirectIterativeDual :
  bool -> float -> Descent.AbstractDescent IndirectState).
Context (LearningRate : float -> LineSearch.AbstractLineSearch LearningState).
Context (ClassicalTrustRegion : LineSearch.AbstractLineSearch TrustState).
Context (max_norm : PyTree float -> float).

(** [GaussNewton(rtol, atol)], the other fields at the defaults of the
    class. *)
Definition GaussNewton (rtol atol : float)
    : AbstractGaussNewton NewtonState LearningState :=
  {| rtol := rtol;
     atol := atol;
     line_search := LearningRate 1%float;
     descent := UnnormalisedNewton true;
     norm := max_norm |}.

(** [LevenbergMarquardt.__init__]; an argument left out by the caller is
    [None] and takes the default of the signature. *)
Definition LevenbergMarquardt (rtol atol : float)
    (norm : option (PyTree float -> float))
    (backtrack_slope decrease_factor : option float)
    : AbstractGaussNewton DirectState TrustState :=
  let norm := default max_norm norm in
  let backtrack_slope := default 0x1.999999999999ap-4%float backtrack_slope in
  let decrease_factor := default 0.5%float decrease_factor in
  {| rtol := rtol;
     atol := atol;
     norm := norm;
     descent := DirectIterativeDual true;
     line_search := ClassicalTrustRegion |}.

(** [IndirectLevenbergMarquardt.__init__] *)
Definition IndirectLevenbergMarquardt (rtol atol : float)
    (norm : option (PyTree float -> float)) (lambda_0 : option float)
    : AbstractGaussNewton IndirectState TrustState :=
  let norm := default max_norm norm in
  let lambda_0 := default 0x1.0624dd2f1a9fcp-10%float lambda_0 in
  {| rtol := rtol;
     atol := atol;
     norm := norm;
     line_search := ClassicalTrustRegion;
     descent := IndirectIterativeDual true lambda_0 |}.
End Variants.

(** ** Edge cases of the concrete problem *)

Module Edge.

(** The converged state of the concrete problem, with other objective
    values. *)
Definition with_objective (f_val f_prev : float) : _GNState (Y * Out) :=
  {| GNState.descent_state := GNState.descent_state Scenario.state3;
     GNState.vector := GNState.vector Scenario.state3;
     GNState.operator := GNState.operator Scenario.state3;
     GNState.diff := GNState.diff Scenario.state3;
     GNState.result := GNState.result Scenario.state3;
     GNState.f_val := f_val;
     GNState.f_prev := f_prev;
     GNState.next_init := GNState.next_init Scenario.state3;
     GNState.aux := GNState.aux Scenario.state3;
     GNState.step := GNState.step Scenario.state3 |}.

(** The converged state of the concrete problem, marked as failed. *)
Definition failed_state : _GNState (Y * Out) :=
  {| GNState.descent_state := GNState.descent_state Scenario.state3;
     GNState.vector := GNState.vector Scenario.state3;
     GNState.operator := GNState.operator Scenario.state3;
     GNState.diff := GNState.diff Scenario.state3;
     GNState.result := linear_solve_failure;
     GNState.f_val := GNState.f_val Scenario.state3;
     GNState.f_prev := GNState.f_prev Scenario.state3;
     GNState.next_init := GNState.next_init Scenario.state3;
     GNState.aux := GNState.aux Scenario.state3;
     GNState.step := GNState.step Scenario.state3 |}.

(** The solver of the concrete problem with both tolerances at zero. *)
Definition zero_tolerance : AbstractGaussNewton (Y * Out) Z :=
  {| rtol := zero;
     atol := zero;
     line_search := line_search Scenario.gauss_newton;
     descent := descent Scenario.gauss_newton;
     norm := norm Scenario.gauss_newton |}.

(** A state that agrees with the state after the first outer step on
    the counter, the descent state, the vector and the operator, and on
    nothing else. *)
Definition state1_other : _GNState (Y * Out) :=
  {| GNState.descent_state := GNState.descent_state Scenario.state1;
     GNState.vector := GNState.vector Scenario.state1;
     GNState.operator := GNState.operator Scenario.state1;
     GNState.diff := Node [];
     GNState.result := linear_solve_failure;
     GNState.f_val := 0%float;
     GNState.f_prev := 0%float;
     GNState.next_init := 8%float;
     GNState.aux := Node [];
     GNState.step := 1 |}.

(** The options of the sub-iteration of the third outer step, written
    out entry by entry. *)
Definition options_at_state2 : Options :=
  list_to_map
    [("predicted_reduction",
      OClosure (fun delta =>
        Descent.predicted_reduction (descent Scenario.gauss_newton) delta
          (Node [Leaf (-1)%float], Node [Leaf 0%float]) Scenario.args ∅));
     ("diff", OTree Scenario.y2);
     ("f0", OScalar 0%float);
     ("operator", OOperator (Scenario.jacobian_at Scenario.y2));
     ("vector", OTree (Node [Leaf 0%float]));
     ("compute_f0", OBool false)].

(** An evaluator with the residual and the operator of the evaluator of
    the concrete problem, and an empty auxiliary output. *)
Definition compute_jac_residual_no_aux (fn : Fn) (y : Y) (args : Args)
    : Out * JacobianLinearOperator float * Aux :=
  ((Scenario.compute_jac_residual fn y args).1, Node []).
End Edge.

(** * Properties *)

(** ** Result codes *)

Lemma RESULTS_eqb_eq (r1 r2 : RESULTS) : RESULTS_eqb r1 r2 = true <-> r1 = r2.
Proof. destruct r1, r2; simpl; split; congruence. Qed.

Lemma RESULTS_eqb_neq (r1 r2 : RESULTS) : RESULTS_eqb r1 r2 = false <-> r1 <> r2.
Proof. destruct r1, r2; simpl; split; congruence. Qed.

(** ** PyTrees *)

(** The result of a leafwise operation has the structure of its first
    argument: a selection between the result and that argument goes
    through, and gives one of the two trees as a whole. *)
Lemma tree_map2_then_where {A B : Type} (f : A -> B -> A) (pred : bool)
    (y : PyTree A) :
  forall (d : PyTree B) (s : PyTree A),
    tree_map2 f y d = Returned s ->
    tree_map2 (jnp_where pred) s y = Returned (jnp_where pred s y).
Proof.
  induction y as [a | cs IH] using PyTree_ind; intros d s Hs.
  - destruct d as [b | ds]; simpl in Hs; [| discriminate].
    injection Hs as <-. by destruct pred.
  - destruct d as [b | ds]; simpl in Hs; [discriminate |].
    destruct (children_map2 (tree_map2 f) cs ds) as [xs | e] eqn:Hxs;
      [| discriminate].
    injection Hs as <-. simpl.
    assert (Hgo : children_map2 (tree_map2 (jnp_where pred)) xs cs
                  = Returned (jnp_where pred xs cs)).
    { clear -IH Hxs. revert ds xs Hxs.
      induction IH as [| c cs' Hc _ IHcs]; intros ds xs Hxs.
      - destruct ds; simpl in Hxs; [| discriminate].
        injection Hxs as <-. by destruct pred.
      - destruct ds as [| d ds']; simpl in Hxs; [discriminate |].
        destruct (tree_map2 f c d) as [x | e] eqn:Hx; [| discriminate].
        destruct (children_map2 (tree_map2 f) cs' ds') as [xs' | e] eqn:Hxs';
          [| discriminate].
        injection Hxs as <-. simpl.
        rewrite (Hc _ _ Hx), (IHcs _ _ Hxs'). by destruct pred. }
    rewrite Hgo. by destruct pred.
Qed.

Lemma tree_where_after_add (pred : bool) (y d s : PyTree float) :
  tree_add y d = Returned s ->
  tree_where pred s y = Returned (jnp_where pred s y).
Proof. apply tree_map2_then_where. Qed.


(** The only exception of a leafwise operation is the [ValueError] of a
    structure mismatch. *)
Lemma tree_map2_raises {A B C : Type} (f : A -> B -> C) (s : PyTree A) :
  forall (t : PyTree B) (e : exn), tree_map2 f s t = Raised e -> e = ValueError.
Proof.
  induction s as [a | cs IH] using PyTree_ind; intros t e He.
  - destruct t; simpl in He; congruence.
  - destruct t as [b | ds]; simpl in He; [congruence |].
    destruct (children_map2 (tree_map2 f) cs ds) as [xs | e'] eqn:Hxs;
      [discriminate |].
    injection He as <-. revert ds Hxs.
    induction IH as [| c cs' Hc _ IHcs]; intros ds Hxs.
    + destruct ds; simpl in Hxs; congruence.
    + destruct ds as [| d ds']; simpl in Hxs; [congruence |].
      destruct (tree_map2 f c d) as [x | e1] eqn:Hx.
      * destruct (children_map2 (tree_map2 f) cs' ds') as [xs' | e2] eqn:Hxs';
          [discriminate |].
        injection Hxs as <-. by eapply IHcs.
      * injection Hxs as <-. by eapply Hc.
Qed.

(** ** The bounded inner iteration *)

Section MinimiseFacts.
Context {LineState : Type}.
Context (solver : LineSearch.AbstractLineSearch LineState).
Context (fn : OneDimensionalFunction) (args : Args) (options : Options).

Lemma OneDimensionalFunction_call_raises delta e :
  OneDimensionalFunction_call fn delta args = Raised e -> e = ValueError.
Proof.
  unfold OneDimensionalFunction_call.
  destruct (descent_1d fn delta) as [diff result].
  destruct (tree_add (y_1d fn) diff) as [new_y | e'] eqn:Hadd; simpl.
  - by destruct (fn_1d fn new_y args).
  - intros [= <-]. by eapply tree_map2_raises.
Qed.

Lemma init_aux_raises y0 e :
  init_aux fn args y0 = Raised e -> e = ValueError.
Proof.
  unfold init_aux.
  destruct (OneDimensionalFunction_call fn y0 args)
    as [[f [[[[f' diff] aux] result] next]] | e'] eqn:Hcall; simpl.
  - discriminate.
  - intros [= <-]. by eapply OneDimensionalFunction_call_raises.
Qed.

(** The step counter of the iteration grows by at most the fuel. *)
Lemma iterate_solve_num_steps fuel :
  forall y state aux n y' state' aux' n',
    iterate_solve solver fn args options fuel y state aux n
      = (y', state', aux', n') ->
    n <= n' <= n + Z.of_nat fuel.
Proof.
  induction fuel as [| fuel IH]; intros y state aux n y' state' aux' n' Hrun.
  - simpl in Hrun. injection Hrun as <- <- <- <-. lia.
  - simpl in Hrun.
    destruct (LineSearch.terminate solver fn y args options state)
      as [[|] r].
    + injection Hrun as <- <- <- <-. lia.
    + destruct (LineSearch.step solver fn y args options state)
        as [[new_y new_state] new_aux].
      apply IH in Hrun. lia.
Qed.

(** The iteration ends on the termination test of the solver, or when
    the fuel is used up. *)
Lemma iterate_solve_stops fuel :
  forall y state aux n y' state' aux' n',
    iterate_solve solver fn args options fuel y state aux n
      = (y', state', aux', n') ->
    (LineSearch.terminate solver fn y' args options state').1 = true \/
    n' = n + Z.of_nat fuel.
Proof.
  induction fuel as [| fuel IH]; intros y state aux n y' state' aux' n' Hrun.
  - simpl in Hrun. injection Hrun as <- <- <- <-. right. lia.
  - simpl in Hrun.
    destruct (LineSearch.terminate solver fn y args options state)
      as [[|] r] eqn:Hterm.
    + injection Hrun as <- <- <- <-. left. by rewrite Hterm.
    + destruct (LineSearch.step solver fn y args options state)
        as [[new_y new_state] new_aux].
      apply IH in Hrun as [Hstop | ->]; [by left | right; lia].
Qed.

(** What [minimise] returns, spelled out. *)
Lemma minimise_inv has_aux y0 max_steps throw sol :
  minimise solver fn args options has_aux y0 max_steps throw = Returned sol ->
  exists aux0 done r,
    init_aux fn args y0 = Returned aux0 /\
    iterate_solve solver fn args options (Z.to_nat max_steps) y0
      (LineSearch.init solver fn y0 args options) aux0 0
      = (Solution.value sol, Solution.state sol, Solution.aux sol,
         Solution.num_steps sol) /\
    LineSearch.terminate solver fn (Solution.value sol) args options
      (Solution.state sol) = (done, r) /\
    Solution.result sol
      = RESULTS_where (RESULTS_eqb r successful && negb done)
          inner_iteration_exhausted r.
Proof.
  unfold minimise.
  destruct (init_aux fn args y0) as [aux0 | e]; simpl; [| discriminate].
  destruct (iterate_solve _ _ _ _ _ _ _ _ _) as [[[y state] aux] n] eqn:Hrun.
  destruct (LineSearch.terminate solver fn y args options state)
    as [done r] eqn:Hterm.
  destruct (throw && _); [discriminate |].
  intros [= <-]. simpl. by exists aux0, done, r.
Qed.

(** Without [throw], a failed solve is never raised. *)
Lemma minimise_no_throw has_aux y0 max_steps e :
  minimise solver fn args options has_aux y0 max_steps false = Raised e ->
  e = ValueError.
Proof.
  unfold minimise.
  destruct (init_aux fn args y0) as [aux0 | e'] eqn:Haux; simpl.
  - destruct (iterate_solve _ _ _ _ _ _ _ _ _) as [[[y state] aux] n].
    by destruct (LineSearch.terminate solver fn y args options state).
  - intros [= <-]. by eapply init_aux_raises.
Qed.
End MinimiseFacts.

(** ** The outer step, unfolded *)

Section StepFacts.
Context {DescentState LineState : Type}.
Context (compute_jac_residual :
  Fn -> Y -> Args -> Out * JacobianLinearOperator float * Aux).

Implicit Types (self : AbstractGaussNewton DescentState LineState).
Implicit Types (state new_state : _GNState DescentState).

(** A call of [step] that returns went through a sub-iteration that
    returned and through the sum [y + diff]; every field of the new
    state is then known. *)
Lemma step_inv self fn y args options state tags new_y new_state aux :
  step compute_jac_residual self fn y args options state tags
    = Returned (new_y, new_state, aux) ->
  exists sol f_val diff new_aux status next_init y_plus_diff,
    line_sol self fn y args options state = Returned sol /\
    Solution.aux sol = (f_val, diff, new_aux, status, next_init) /\
    tree_add y diff = Returned y_plus_diff /\
    new_y = jnp_where (GNState.step state >? 0) y_plus_diff y /\
    aux = GNState.aux state /\
    new_state =
      {| GNState.descent_state :=
           Descent.update_state (descent self)
             (GNState.descent_state state) (GNState.diff state)
             (compute_jac_residual fn new_y args).1.1
             (compute_jac_residual fn new_y args).1.2 None options;
         GNState.vector := (compute_jac_residual fn new_y args).1.1;
         GNState.operator := (compute_jac_residual fn new_y args).1.2;
         GNState.diff := diff;
         GNState.result := successful;
         GNState.f_val := f_val;
         GNState.f_prev := GNState.f_val state;
         GNState.next_init := next_init;
         GNState.aux := new_aux;
         GNState.step := wrap_int (GNState.step state + 1) |}.
Proof.
  unfold step.
  destruct (line_sol self fn y args options state) as [sol | e]; simpl;
    [| discriminate].
  destruct (Solution.aux sol)
    as [[[[f_val diff] new_aux] status] next_init] eqn:Haux.
  destruct (tree_add y diff) as [y_plus_diff | e] eqn:Hadd; simpl;
    [| discriminate].
  rewrite (tree_where_after_add _ _ _ _ Hadd). simpl.
  destruct (compute_jac_residual fn _ args) as [[vector operator] a] eqn:Hjac.
  intros [= <- <- <-].
  exists sol, f_val, diff, new_aux, status, next_init, y_plus_diff.
  rewrite Hjac. by repeat split.
Qed.

(** Conversely, a sub-iteration that returns a displacement of the
    structure of [y] makes [step] return. *)
Lemma step_returns self fn y args options state tags
    sol f_val diff new_aux status next_init y_plus_diff :
  line_sol self fn y args options state = Returned sol ->
  Solution.aux sol = (f_val, diff, new_aux, status, next_init) ->
  tree_add y diff = Returned y_plus_diff ->
  let new_y := jnp_where (GNState.step state >? 0) y_plus_diff y in
  step compute_jac_residual self fn y args options state tags
    = Returned
        (new_y,
         {| GNState.descent_state :=
              Descent.update_state (descent self)
                (GNState.descent_state state) (GNState.diff state)
                (compute_jac_residual fn new_y args).1.1
                (compute_jac_residual fn new_y args).1.2 None options;
            GNState.vector := (compute_jac_residual fn new_y args).1.1;
            GNState.operator := (compute_jac_residual fn new_y args).1.2;
            GNState.diff := diff;
            GNState.result := successful;
            GNState.f_val := f_val;
            GNState.f_prev := GNState.f_val state;
            GNState.next_init := next_init;
            GNState.aux := new_aux;
            GNState.step := wrap_int (GNState.step state + 1) |},
         GNState.aux state).
Proof.
  unfold step. intros -> Haux Hadd. simpl.
  rewrite Haux, Hadd. simpl.
  rewrite (tree_where_after_add _ _ _ _ Hadd). simpl.
  by destruct (compute_jac_residual fn _ args) as [[vector operator] a].
Qed.

(** The only exception of [step] is the [ValueError] of a structure
    mismatch. *)
Lemma step_raises self fn y args options state tags e :
  step compute_jac_residual self fn y args options state tags = Raised e ->
  e = ValueError.
Proof.
  unfold step.
  destruct (line_sol self fn y args options state) as [sol | e'] eqn:Hsol;
    simpl.
  - destruct (Solution.aux sol) as [[[[f_val diff] new_aux] status] next_init].
    destruct (tree_add y diff) as [y_plus_diff | e'] eqn:Hadd; simpl.
    + rewrite (tree_where_after_add _ _ _ _ Hadd). simpl.
      by destruct (compute_jac_residual fn _ args) as [[vector operator] a].
    + intros [= <-]. by eapply tree_map2_raises.
  - intros [= <-]. unfold line_sol in Hsol.
    exact (minimise_no_throw _ _ _ _ _ _ _ _ Hsol).
Qed.
End StepFacts.

(** ** The concrete problem, step by step *)

Example scenario_first_step :
  step Scenario.compute_jac_residual Scenario.gauss_newton Scenario.fn
    Scenario.y0 Scenario.args Scenario.options Scenario.state0 Scenario.tags
  = Returned (Scenario.y0, Scenario.state1, Node [Leaf 0%float]).
Proof. vm_compute. reflexivity. Qed.

Example scenario_second_step :
  step Scenario.compute_jac_residual Scenario.gauss_newton Scenario.fn
    Scenario.y0 Scenario.args Scenario.options Scenario.state1 Scenario.tags
  = Returned (Scenario.y2, Scenario.state2, Node [Leaf (-1)%float]).
Proof. vm_compute. reflexivity. Qed.

Example scenario_third_step :
  step Scenario.compute_jac_residual Scenario.gauss_newton Scenario.fn
    Scenario.y2 Scenario.args Scenario.options Scenario.state2 Scenario.tags
  = Returned (Scenario.y2, Scenario.state3, Node [Leaf 3%float]).
Proof. vm_compute. reflexivity. Qed.

Example scenario_sub_iterations :
  line_sol Scenario.gauss_newton Scenario.fn Scenario.y0 Scenario.args
    Scenario.options Scenario.state0 = Returned Scenario.sol0 /\
  line_sol Scenario.gauss_newton Scenario.fn Scenario.y0 Scenario.args
    Scenario.options Scenario.state1 = Returned Scenario.sol1 /\
  line_sol Scenario.gauss_newton Scenario.fn Scenario.y2 Scenario.args
    Scenario.options Scenario.state2 = Returned Scenario.sol2.
Proof. repeat split; vm_compute; reflexivity. Qed.

Example scenario_terminate :
  terminate Scenario.gauss_newton Scenario.fn
    Scenario.y2 Scenario.args Scenario.options Scenario.state2 Scenario.tags
  = Returned (false, successful) /\
  terminate Scenario.gauss_newton Scenario.fn
    Scenario.y2 Scenario.args Scenario.options Scenario.state3 Scenario.tags
  = Returned (true, successful).
Proof. split; vm_compute; reflexivity. Qed.

(** ** Initialisation *)



Section Claims.
Context {DescentState LineState : Type}.

Implicit Types (self : AbstractGaussNewton DescentState LineState).
Implicit Types (state new_state : _GNState DescentState).


(** C2.  [terminate] returns stop = true exactly when the result of the
    state is not successful, or all three hold: [step >= 2], the norm
    of the last displacement [diff] divided leaf by leaf by
    [atol + rtol * |y|] is below 1, and
    [|f_val - f_prev| / (rtol * |f_prev| + atol)] is below 1.  The
    displacement of the state has to have the structure of [y]. *)
Theorem terminate_stop_iff self fn y args options state tags scaled_diff :
  tree_div (GNState.diff state)
    (tree_map (fun yi => (atol self + rtol self * abs yi)%float) y)
    = Returned scaled_diff ->
  exists stop result,
    terminate self fn y args options state tags = Returned (stop, result) /\
    (stop = true <->
     GNState.result state <> successful \/
     (2 <= GNState.step state /\
      (norm self scaled_diff <? 1)%float = true /\
      (abs (GNState.f_val state - GNState.f_prev state)
       / (rtol self * abs (GNState.f_prev state) + atol self) <? 1)%float
      = true)).
Proof.
  intros Hdiv. unfold terminate. rewrite Hdiv. simpl.
  eexists _, _. split; [reflexivity |].
  rewrite orb_true_iff, !andb_true_iff, negb_true_iff, RESULTS_eqb_neq.
  rewrite Z.geb_le. tauto.
Qed.
End Claims.

(** ** The outer step *)

Section StepClaims.
Context {DescentState LineState : Type}.
Context (compute_jac_residual :
  Fn -> Y -> Args -> Out * JacobianLinearOperator float * Aux).

Implicit Types (self : AbstractGaussNewton DescentState LineState).
Implicit Types (state new_state : _GNState DescentState).

(** C4.  When the sub-iteration of a call of [step] returns the accepted
    displacement [diff] and the sum [y + diff] exists, [step] returns;
    the displacement recorded in the new state is [diff]; the returned
    parameter is [y] itself when the counter of the incoming state is
    0, and is [y + diff] when the counter is greater than 0. *)
Theorem step_new_parameter self fn y args options state tags
    sol f_val diff new_aux status next_init y_plus_diff :
  line_sol self fn y args options state = Returned sol ->
  Solution.aux sol = (f_val, diff, new_aux, status, next_init) ->
  tree_add y diff = Returned y_plus_diff ->
  exists new_y new_state aux,
    step compute_jac_residual self fn y args options state tags
      = Returned (new_y, new_state, aux) /\
    GNState.diff new_state = diff /\
    (GNState.step state = 0 -> new_y = y) /\
    (0 < GNState.step state -> new_y = y_plus_diff).
Proof.
  intros Hsol Haux Hadd.
  eexists _, _, _. split; [by eapply step_returns |].
  split; [reflexivity |]. split.
  - intros ->. reflexivity.
  - intros Hpos. apply Z.gtb_lt in Hpos. by rewrite Hpos.
Qed.

(** C10.  Every state that [step] returns has [result = successful],
    whatever result the sub-iteration reported and whatever status came
    with its accepted step. *)
Theorem step_result_successful self fn y args options state tags
    new_y new_state aux :
  step compute_jac_residual self fn y args options state tags
    = Returned (new_y, new_state, aux) ->
  GNState.result new_state = successful.
Proof.
  intros Hstep. apply step_inv in Hstep
    as (sol & f_val & diff & new_aux & status & next_init & y_plus_diff &
        _ & _ & _ & _ & _ & ->).
  reflexivity.
Qed.

(** C9.  The new state of a call of [step] comes from one evaluation of
    the residual and the Jacobian at the new parameter: the vector and
    the operator of the new state are the two of that evaluation, and
    the state of the descent is [update_state] applied to the old
    descent state, the displacement [diff] of the incoming state, and
    that vector and operator. *)
Theorem step_update_state self fn y args options state tags
    new_y new_state aux :
  step compute_jac_residual self fn y args options state tags
    = Returned (new_y, new_state, aux) ->
  exists vector operator new_aux,
    compute_jac_residual fn new_y args = (vector, operator, new_aux) /\
    GNState.descent_state new_state
      = Descent.update_state (descent self)
          (GNState.descent_state state) (GNState.diff state)
          vector operator None options /\
    GNState.vector new_state = vector /\
    GNState.operator new_state = operator.
Proof.
  intros Hstep. apply step_inv in Hstep
    as (sol & f_val & diff & new_aux & status & next_init & y_plus_diff &
        _ & _ & _ & _ & _ & ->).
  destruct (compute_jac_residual fn new_y args) as [[vector operator] a].
  by exists vector, operator, a.
Qed.
(** X15.  The auxiliary value that a call of [step] returns is the one
    stored in the incoming state, and the auxiliary value that the
    sub-iteration of this call reports is stored in the new state.  So
    the next call returns the auxiliary value that the sub-iteration of
    this call reported; a call at [step = 0] leaves a state with
    [step = 1], and the call on that state returns what the
    sub-iteration of the first call reported. *)
Theorem step_aux_delayed self fn y args options state tags
    new_y new_state aux :
  step compute_jac_residual self fn y args options state tags
    = Returned (new_y, new_state, aux) ->
  aux = GNState.aux state /\
  (exists sol f_val diff new_aux status next_init,
     line_sol self fn y args options state = Returned sol /\
     Solution.aux sol = (f_val, diff, new_aux, status, next_init) /\
     GNState.aux new_state = new_aux) /\
  (GNState.step state = 0 -> GNState.step new_state = 1) /\
  (forall fn' y' args' options' tags' new_y' new_state' aux',
     step compute_jac_residual self fn' y' args' options' new_state tags'
       = Returned (new_y', new_state', aux') ->
     aux' = GNState.aux new_state).
Proof.
  intros Hstep. pose proof Hstep as Hinv. apply step_inv in Hinv
    as (sol & f_val & diff & new_aux & status & next_init & y_plus_diff &
        Hsol & Haux & _ & _ & -> & ->).
  split; [reflexivity |]. split; [| split].
  - by exists sol, f_val, diff, new_aux, status, next_init.
  - simpl. by intros ->.
  - intros fn' y' args' options' tags' new_y' new_state' aux' Hnext.
    apply step_inv in Hnext
      as (? & ? & ? & ? & ? & ? & ? & _ & _ & _ & _ & -> & _).
    reflexivity.
Qed.

(** C6.  The sub-iteration of [step] starts from the step-size
    [first_init(vector, operator, options)] of the line search when the
    counter of the state is at most 1, and from the [next_init] of the
    state otherwise: when the bounded sub-iteration started from that
    step-size returns an accepted step whose displacement can be added
    to [y], [step] returns the state built from that accepted step. *)
Theorem step_initial_step_size self fn y args options state tags
    init sol f_val diff new_aux status next_init y_plus_diff :
  (GNState.step state <= 1 ->
   init = LineSearch.first_init (line_search self)
            (GNState.vector state) (GNState.operator state) options) ->
  (1 < GNState.step state -> init = GNState.next_init state) ->
  minimise (line_search self) (problem_1d self fn y args options state) args
    (line_search_options self y args state) true init 100 false
    = Returned sol ->
  Solution.aux sol = (f_val, diff, new_aux, status, next_init) ->
  tree_add y diff = Returned y_plus_diff ->
  exists new_y new_state,
    step compute_jac_residual self fn y args options state tags
      = Returned (new_y, new_state, GNState.aux state) /\
    GNState.f_val new_state = f_val /\
    GNState.diff new_state = diff /\
    GNState.aux new_state = new_aux /\
    GNState.next_init new_state = next_init.
Proof.
  intros Hfirst Hnext Hsol Haux Hadd.
  assert (Hinit : init = line_search_init self options state).
  { unfold line_search_init.
    destruct (GNState.step state <=? 1) eqn:Hle; simpl.
    - apply Hfirst. by apply Z.leb_le.
    - apply Hnext. by apply Z.leb_gt. }
  subst init. eexists _, _. split; [by eapply step_returns |]. done.
Qed.

(** The dictionary [line_search_options], read back key by key. *)
Lemma line_search_options_content self fn y args options state :
  let passed := line_search_options self y args state in
  line_sol self fn y args options state
    = minimise (line_search self) (problem_1d self fn y args options state)
        args passed true (line_search_init self options state) 100 false /\
  passed !! "f0"
    = Some (OScalar (if decide (1 < GNState.step state)
                     then GNState.f_val state else infinity)) /\
  passed !! "compute_f0"
    = Some (OBool (bool_decide (GNState.step state = 1))) /\
  passed !! "vector" = Some (OTree (GNState.vector state)) /\
  passed !! "operator" = Some (OOperator (GNState.operator state)) /\
  passed !! "diff" = Some (OTree y) /\
  (exists g,
     passed !! "predicted_reduction" = Some (OClosure g) /\
     forall delta,
       g delta = Descent.predicted_reduction (descent self) delta
                   (GNState.descent_state state) args ∅) /\
  dom passed
    = {[ "f0"; "compute_f0"; "vector"; "operator"; "diff";
         "predicted_reduction" ]}.
Proof.
  cbv zeta. unfold line_search_options.
  split; [reflexivity |].
  split.
  { rewrite !lookup_insert_ne by done. rewrite lookup_insert_eq.
    unfold jnp_where. destruct (GNState.step state >? 1) eqn:Hgt.
    - apply Z.gtb_lt in Hgt. by rewrite decide_True.
    - rewrite decide_False; [done |].
      intros Hlt. apply Z.gtb_lt in Hlt. congruence. }
  split.
  { rewrite !lookup_insert_ne by done. rewrite lookup_insert_eq.
    do 2 f_equal. destruct (GNState.step state =? 1) eqn:Heq.
    - apply Z.eqb_eq in Heq. by rewrite bool_decide_eq_true_2.
    - apply Z.eqb_neq in Heq. by rewrite bool_decide_eq_false_2. }
  split; [by rewrite !lookup_insert_ne, lookup_insert_eq by done |].
  split; [by rewrite !lookup_insert_ne, lookup_insert_eq by done |].
  split; [by rewrite !lookup_insert_ne, lookup_insert_eq by done |].
  split.
  { eexists. split; [apply lookup_insert_eq | done]. }
  rewrite !dom_insert_L, dom_empty_L. set_solver.
Qed.
(** C7.  The options that [step] passes to the sub-iteration are the
    dictionary of exactly six entries with: under [f0] the objective
    value of the state when its counter is greater than 1 and
    [+infinity] otherwise; under [compute_f0] a flag that is true exactly
    when the counter is 1; under [vector] and [operator] the residual
    vector and the Jacobian operator of the state; under [diff] the
    current parameter [y]; and under [predicted_reduction] the closure
    that maps a step-size to the predicted reduction of the descent at
    the descent state of the state.  Whenever the bounded sub-iteration
    run with a dictionary of that content returns an accepted step whose
    displacement can be added to [y], [step] returns the state built from
    that accepted step. *)
Theorem step_line_search_options self fn y args options state tags
    (passed : Options) sol f_val diff new_aux status next_init y_plus_diff :
  dom passed
    = {[ "f0"; "compute_f0"; "vector"; "operator"; "diff";
         "predicted_reduction" ]} ->
  passed !! "f0"
    = Some (OScalar (if decide (1 < GNState.step state)
                     then GNState.f_val state else infinity)) ->
  passed !! "compute_f0"
    = Some (OBool (bool_decide (GNState.step state = 1))) ->
  passed !! "vector" = Some (OTree (GNState.vector state)) ->
  passed !! "operator" = Some (OOperator (GNState.operator state)) ->
  passed !! "diff" = Some (OTree y) ->
  passed !! "predicted_reduction"
    = Some (OClosure (fun delta =>
              Descent.predicted_reduction (descent self) delta
                (GNState.descent_state state) args ∅)) ->
  minimise (line_search self) (problem_1d self fn y args options state) args
    passed true (line_search_init self options state) 100 false
    = Returned sol ->
  Solution.aux sol = (f_val, diff, new_aux, status, next_init) ->
  tree_add y diff = Returned y_plus_diff ->
  exists new_y new_state,
    step compute_jac_residual self fn y args options state tags
      = Returned (new_y, new_state, GNState.aux state) /\
    GNState.f_val new_state = f_val /\
    GNState.diff new_state = diff /\
    GNState.aux new_state = new_aux /\
    GNState.next_init new_state = next_init.
Proof.
  intros Hdom Hf0 Hcompute Hvector Hoperator Hdiff Hreduction Hsol Haux Hadd.
  destruct (line_search_options_content self fn y args options state)
    as (_ & Hf0' & Hcompute' & Hvector' & Hoperator' & Hdiff' &
        (g & Hreduction' & _) & Hdom').
  assert (Hpassed : passed = line_search_options self y args state).
  { apply map_eq. intros key.
    destruct (decide (key ∈ dom passed)) as [Hin | Hout].
    - rewrite Hdom in Hin.
      repeat (apply elem_of_union in Hin as [Hin | Hin]);
        apply elem_of_singleton in Hin as ->; congruence || idtac.
      rewrite Hreduction. unfold line_search_options.
      by rewrite lookup_insert_eq.
    - pose proof Hout as Hout'. rewrite Hdom, <- Hdom' in Hout'.
      apply not_elem_of_dom in Hout, Hout'. congruence. }
  subst passed. eexists _, _.
  split; [by eapply step_returns |]. done.
Qed.

(** C8.  The sub-iteration of [step] is the driver run with a cap of 100
    steps and without [throw].  [step] never raises a failed solve as an
    exception.  Every call of [step] that returns has stored the accepted
    step of a solution of that run: a solution reached after at most 100
    steps of the line search, and, when the line search has not stopped
    by itself at the returned step-size, after all 100 steps and with a
    result that is not successful ([inner_iteration_exhausted] unless the
    line search has a failure of its own to report).  Conversely,
    whenever that run returns a solution whose displacement can be added
    to [y], exhausted or not, [step] returns the state built from its
    accepted step. *)
Theorem step_inner_iteration_capped self fn y args options state tags :
  (forall r,
     step compute_jac_residual self fn y args options state tags
       <> Raised (RuntimeError r)) /\
  (forall new_y new_state aux,
     step compute_jac_residual self fn y args options state tags
       = Returned (new_y, new_state, aux) ->
     exists sol f_val diff new_aux status next_init,
       minimise (line_search self) (problem_1d self fn y args options state)
         args (line_search_options self y args state) true
         (line_search_init self options state) 100 false = Returned sol /\
       Solution.aux sol = (f_val, diff, new_aux, status, next_init) /\
       GNState.f_val new_state = f_val /\
       GNState.diff new_state = diff /\
       GNState.aux new_state = new_aux /\
       GNState.next_init new_state = next_init /\
       0 <= Solution.num_steps sol <= 100 /\
       forall r,
         LineSearch.terminate (line_search self)
           (problem_1d self fn y args options state) (Solution.value sol) args
           (line_search_options self y args state) (Solution.state sol)
           = (false, r) ->
         Solution.num_steps sol = 100 /\
         Solution.result sol <> successful /\
         (r = successful -> Solution.result sol = inner_iteration_exhausted)) /\
  (forall sol f_val diff new_aux status next_init y_plus_diff,
     minimise (line_search self) (problem_1d self fn y args options state)
       args (line_search_options self y args state) true
       (line_search_init self options state) 100 false = Returned sol ->
     Solution.aux sol = (f_val, diff, new_aux, status, next_init) ->
     tree_add y diff = Returned y_plus_diff ->
     exists new_y new_state,
       step compute_jac_residual self fn y args options state tags
         = Returned (new_y, new_state, GNState.aux state) /\
       GNState.f_val new_state = f_val /\
       GNState.diff new_state = diff /\
       GNState.aux new_state = new_aux /\
       GNState.next_init new_state = next_init).
Proof.
  split; [| split].
  - intros r Hraise. apply step_raises in Hraise. discriminate.
  - intros new_y new_state aux Hstep. apply step_inv in Hstep
      as (sol & f_val & diff & new_aux & status & next_init & y_plus_diff &
          Hsol & Haux & _ & _ & _ & ->).
    exists sol, f_val, diff, new_aux, status, next_init.
    unfold line_sol in Hsol. split; [exact Hsol |]. split; [exact Haux |].
    do 4 (split; [reflexivity |]).
    apply minimise_inv in Hsol as (aux0 & done & r0 & _ & Hrun & Hterm & Hres).
    split.
    + apply iterate_solve_num_steps in Hrun. simpl in Hrun. lia.
    + intros r Hopen. rewrite Hopen in Hterm. injection Hterm as <- <-.
      apply iterate_solve_stops in Hrun as [Hstop | Hcap].
      * rewrite Hopen in Hstop. discriminate.
      * split; [by rewrite Hcap |]. rewrite Hres.
        destruct r; simpl; repeat split; congruence.
  - intros sol f_val diff new_aux status next_init y_plus_diff Hsol Haux Hadd.
    eexists _, _. split; [by eapply step_returns |]. done.
Qed.
End StepClaims.

(** ** The concrete problem with failing collaborators *)

Lemma float_neq (x y : float) :
  PrimFloat.eqb x x = true -> PrimFloat.eqb x y = false -> x <> y.
Proof. intros Hxx Hxy <-. congruence. Qed.

(** C1.  The descent reports [linear_solve_failure] with every
    displacement and the line search uses up its 100 steps, so that the
    sub-iteration of the first outer step returns the result
    [inner_iteration_exhausted].  The state that [step] returns has
    nevertheless [result = successful], and [terminate] on it neither
    stops nor reports a failure. *)
Theorem step_drops_inner_failure :
  let state := init Scenario.failing Scenario.fn Scenario.y0 Scenario.args
                 Scenario.options Scenario.f_struct Scenario.aux_struct
                 Scenario.tags in
  exists sol f_val diff new_aux next_init new_state aux,
    line_sol Scenario.failing Scenario.fn Scenario.y0 Scenario.args
      Scenario.options state = Returned sol /\
    Solution.result sol = inner_iteration_exhausted /\
    Solution.num_steps sol = 100 /\
    Solution.aux sol = (f_val, diff, new_aux, linear_solve_failure, next_init) /\
    step Scenario.compute_jac_residual Scenario.failing Scenario.fn Scenario.y0
      Scenario.args Scenario.options state Scenario.tags
      = Returned (Scenario.y0, new_state, aux) /\
    GNState.result new_state = successful /\
    terminate Scenario.failing Scenario.fn Scenario.y0 Scenario.args
      Scenario.options new_state Scenario.tags = Returned (false, successful).
Proof.
  cbv zeta. eexists _, _, _, _, _, _, _.
  split; [vm_compute; reflexivity |].
  split; [reflexivity |]. split; [reflexivity |]. split; [reflexivity |].
  split; [vm_compute; reflexivity |].
  split; [reflexivity |]. vm_compute. reflexivity.
Qed.

(** ** The theorems at the concrete problem *)

Import Scenario.

Lemma terminate_stop_iff_witness :
  tree_div (GNState.diff state3)
    (tree_map (fun yi => (atol gauss_newton + rtol gauss_newton * abs yi)%float) y2)
    = Returned (Node [Leaf (-0)%float]) /\
  exists result,
    terminate gauss_newton fn y2 args options state3 tags = Returned (true, result).
Proof.
  assert (Hdiv : tree_div (GNState.diff state3)
            (tree_map (fun yi => (atol gauss_newton + rtol gauss_newton * abs yi)%float) y2)
            = Returned (Node [Leaf (-0)%float])) by (vm_compute; reflexivity).
  split; [exact Hdiv |].
  destruct (terminate_stop_iff gauss_newton fn y2 args options state3 tags _ Hdiv)
    as (stop & result & Hterm & Hstop).
  exists result. rewrite Hterm.
  assert (Htrue : stop = true).
  { apply Hstop. right. split; [simpl; lia |]. split; vm_compute; reflexivity. }
  rewrite Htrue. reflexivity.
Defined.

Lemma step_new_parameter_witness :
  exists new_state aux,
    step compute_jac_residual gauss_newton fn y0 args options state1 tags
      = Returned (y2, new_state, aux) /\
    GNState.diff new_state = Node [Leaf 3%float].
Proof.
  destruct (step_new_parameter compute_jac_residual gauss_newton fn y0 args
              options state1 tags sol1 0%float (Node [Leaf 3%float])
              (Node [Leaf 3%float]) successful 2%float y2)
    as (new_y & new_state & aux & Hstep & Hdiff & _ & Hpos).
  - vm_compute. reflexivity.
  - reflexivity.
  - vm_compute. reflexivity.
  - exists new_state, aux. rewrite <- Hpos by (simpl; lia). by split.
Defined.

Lemma step_aux_delayed_witness :
  step compute_jac_residual gauss_newton fn y0 args options state0 tags
    = Returned (y0, state1, Node [Leaf 0%float]) /\
  Node [Leaf 0%float] = GNState.aux state0 /\
  GNState.step state1 = 1 /\
  Node [Leaf (-1)%float] = GNState.aux state1.
Proof.
  assert (Hfirst : step compute_jac_residual gauss_newton fn y0 args options
                     state0 tags = Returned (y0, state1, Node [Leaf 0%float]))
    by (vm_compute; reflexivity).
  destruct (step_aux_delayed compute_jac_residual gauss_newton fn y0 args
              options state0 tags _ _ _ Hfirst) as (Haux & _ & Hone & Hnext).
  split; [exact Hfirst |]. split; [exact Haux |].
  split; [apply Hone; reflexivity |].
  apply (Hnext fn y0 args options tags y2 state2). vm_compute. reflexivity.
Defined.

Lemma step_initial_step_size_witness :
  exists new_state,
    step compute_jac_residual gauss_newton fn y2 args options state2 tags
      = Returned (y2, new_state, GNState.aux state2) /\
    GNState.next_init new_state = 4%float.
Proof.
  destruct (step_initial_step_size compute_jac_residual gauss_newton fn y2 args
              options state2 tags 2%float sol2 0%float (Node [Leaf (-0)%float])
              (Node [Leaf 3%float]) successful 4%float y2)
    as (new_y & new_state & Hstep & _ & _ & _ & Hnext).
  - simpl. lia.
  - reflexivity.
  - vm_compute. reflexivity.
  - reflexivity.
  - vm_compute. reflexivity.
  - exists new_state. split; [| exact Hnext].
    rewrite Hstep. vm_compute in Hstep. injection Hstep as <- _. reflexivity.
Defined.

Lemma step_line_search_options_witness :
  exists new_state,
    step compute_jac_residual gauss_newton fn y2 args options state2 tags
      = Returned (y2, new_state, GNState.aux state2) /\
    GNState.f_val new_state = 0%float /\
    GNState.next_init new_state = 4%float.
Proof.
  destruct (step_line_search_options compute_jac_residual gauss_newton fn y2
              args options state2 tags Edge.options_at_state2 sol2 0%float
              (Node [Leaf (-0)%float]) (Node [Leaf 3%float]) successful
              4%float y2)
    as (new_y & new_state & Hstep & Hf_val & _ & _ & Hnext).
  - vm_compute. reflexivity.
  - reflexivity.
  - reflexivity.
  - reflexivity.
  - reflexivity.
  - reflexivity.
  - reflexivity.
  - vm_compute. reflexivity.
  - reflexivity.
  - vm_compute. reflexivity.
  - exists new_state. split; [| split; [exact Hf_val | exact Hnext]].
    rewrite Hstep. vm_compute in Hstep. injection Hstep as <- _. reflexivity.
Defined.

Lemma step_inner_iteration_capped_witness :
  step compute_jac_residual failing fn y0 args options failing_state0 tags
    = Returned (y0, state1, Node [Leaf 0%float]) /\
  exists sol,
    minimise (line_search failing)
      (problem_1d failing fn y0 args options failing_state0) args
      (line_search_options failing y0 args failing_state0) true
      (line_search_init failing options failing_state0) 100 false
      = Returned sol /\
    Solution.num_steps sol = 100 /\
    Solution.result sol = inner_iteration_exhausted.
Proof.
  assert (Hstep : step compute_jac_residual failing fn y0 args options
                    failing_state0 tags
                  = Returned (y0, state1, Node [Leaf 0%float]))
    by (vm_compute; reflexivity).
  split; [exact Hstep |].
  destruct (step_inner_iteration_capped compute_jac_residual failing fn y0 args
              options failing_state0 tags) as (_ & Hreturned & _).
  destruct (Hreturned _ _ _ Hstep)
    as (sol & f_val & diff & new_aux & status & next_init &
        Hsol & _ & _ & _ & _ & _ & _ & Hopen).
  exists sol. split; [exact Hsol |].
  assert (Hfailing : minimise (line_search failing)
            (problem_1d failing fn y0 args options failing_state0) args
            (line_search_options failing y0 args failing_state0) true
            (line_search_init failing options failing_state0) 100 false
            = Returned failing_sol0) by (vm_compute; reflexivity).
  rewrite Hfailing in Hsol. injection Hsol as <-.
  destruct (Hopen successful) as (Hsteps & _ & Hresult).
  - vm_compute. reflexivity.
  - split; [exact Hsteps | apply Hresult; reflexivity].
Defined.

Lemma step_update_state_witness :
  step compute_jac_residual gauss_newton fn y0 args options state1 tags
    = Returned (y2, state2, Node [Leaf (-1)%float]) /\
  GNState.diff state1 = Node [Leaf (-1)%float] /\
  GNState.diff state2 = Node [Leaf 3%float] /\
  exists vector operator new_aux,
    compute_jac_residual fn y2 args = (vector, operator, new_aux) /\
    GNState.descent_state state2
      = Descent.update_state (descent gauss_newton)
          (GNState.descent_state state1) (Node [Leaf (-1)%float])
          vector operator None options /\
    GNState.vector state2 = vector /\
    GNState.operator state2 = operator.
Proof.
  assert (Hstep : step compute_jac_residual gauss_newton fn y0 args options
                    state1 tags = Returned (y2, state2, Node [Leaf (-1)%float]))
    by (vm_compute; reflexivity).
  split; [exact Hstep |]. split; [reflexivity |]. split; [reflexivity |].
  exact (step_update_state compute_jac_residual gauss_newton fn y0 args options
           state1 tags _ _ _ Hstep).
Defined.

Lemma step_result_successful_witness :
  line_sol failing fn y0 args options failing_state0 = Returned failing_sol0 /\
  step compute_jac_residual failing fn y0 args options failing_state0 tags
    = Returned (y0, state1, Node [Leaf 0%float]) /\
  GNState.result state1 = successful.
Proof.
  assert (Hstep : step compute_jac_residual failing fn y0 args options
                    failing_state0 tags
                  = Returned (y0, state1, Node [Leaf 0%float]))
    by (vm_compute; reflexivity).
  split; [vm_compute; reflexivity |]. split; [exact Hstep |].
  exact (step_result_successful compute_jac_residual failing fn y0 args options
           failing_state0 tags _ _ _ Hstep).
Defined.

(** C5.  In the concrete problem the initial point is [0] and the
    auxiliary output of the residual function is the point at which it
    was evaluated.  The first call of [step] keeps the parameter at [0],
    throws away the auxiliary output of the evaluation at [0], and stores
    the auxiliary output of the trial point [-1] of its sub-iteration.
    The call at [step = 1], on the same parameter [0], then returns the
    auxiliary output of the trial point [-1], not that of the initial
    point. *)
Theorem step_returns_trial_aux_at_step_one :
  step compute_jac_residual gauss_newton fn y0 args options
    (init gauss_newton fn y0 args options f_struct aux_struct tags) tags
    = Returned (y0, state1, Node [Leaf 0%float]) /\
  GNState.step state1 = 1 /\
  (fn y0 args).2 = Node [Leaf 0%float] /\
  (compute_jac_residual fn y0 args).2 = Node [Leaf 0%float] /\
  GNState.aux state1 = (fn (Node [Leaf (-1)%float]) args).2 /\
  step compute_jac_residual gauss_newton fn y0 args options state1 tags
    = Returned (y2, state2, Node [Leaf (-1)%float]) /\
  Node [Leaf (-1)%float] <> (fn y0 args).2.
Proof.
  split; [vm_compute; reflexivity |].
  split; [reflexivity |]. split; [reflexivity |]. split; [reflexivity |].
  split; [reflexivity |]. split; [vm_compute; reflexivity |].
  intros Heq. apply (f_equal (fun t => hd zero (tree_leaves t))) in Heq.
  revert Heq. apply float_neq; vm_compute; reflexivity.
Qed.

Example scenario_run :
  run gauss_newton 3
  = Some (y2, state3, [Node [Leaf 0%float]; Node [Leaf (-1)%float]; Node [Leaf 3%float]]).
Proof. vm_compute. reflexivity. Qed.

(** * Further properties *)

(** ** Structure of PyTrees *)

Lemma tree_structure_map {A B : Type} (f : A -> B) (t : PyTree A) :
  tree_structure (tree_map f t) = tree_structure t.
Proof.
  unfold tree_structure.
  induction t as [a | cs IH] using PyTree_ind; [reflexivity |].
  simpl. f_equal. induction IH as [| c cs' Hc _ IHcs]; [reflexivity |].
  simpl. by rewrite Hc, IHcs.
Qed.

(** A leafwise operation on two trees returns a tree of their common
    structure. *)
Lemma tree_map2_structure {A B C : Type} (f : A -> B -> C) (s : PyTree A) :
  forall (t : PyTree B) (r : PyTree C),
    tree_map2 f s t = Returned r ->
    tree_structure r = tree_structure s /\ tree_structure t = tree_structure s.
Proof.
  unfold tree_structure.
  induction s as [a | cs IH] using PyTree_ind; intros t r Hr.
  - destruct t as [b | ds]; simpl in Hr; [| discriminate].
    by injection Hr as <-.
  - destruct t as [b | ds]; simpl in Hr; [discriminate |].
    destruct (children_map2 (tree_map2 f) cs ds) as [xs | e] eqn:Hxs;
      [| discriminate].
    injection Hr as <-. simpl.
    assert (Hgo : map (tree_map (fun _ => tt)) xs = map (tree_map (fun _ => tt)) cs /\
                  map (tree_map (fun _ => tt)) ds = map (tree_map (fun _ => tt)) cs).
    { clear -IH Hxs. revert ds xs Hxs.
      induction IH as [| c cs' Hc _ IHcs]; intros ds xs Hxs.
      - destruct ds; simpl in Hxs; [| discriminate]. by injection Hxs as <-.
      - destruct ds as [| d ds']; simpl in Hxs; [discriminate |].
        destruct (tree_map2 f c d) as [x | e] eqn:Hx; [| discriminate].
        destruct (children_map2 (tree_map2 f) cs' ds') as [xs' | e] eqn:Hxs';
          [| discriminate].
        injection Hxs as <-. simpl.
        destruct (Hc _ _ Hx) as [-> ->].
        destruct (IHcs _ _ Hxs') as [-> ->]. done. }
    destruct Hgo as [-> ->]. done.
Qed.

(** Two trees of one structure can be combined leaf by leaf. *)
Lemma tree_map2_returns {A B C : Type} (f : A -> B -> C) (s : PyTree A) :
  forall t : PyTree B,
    tree_structure t = tree_structure s ->
    exists r, tree_map2 f s t = Returned r.
Proof.
  unfold tree_structure.
  induction s as [a | cs IH] using PyTree_ind; intros t Hst.
  - destruct t as [b | ds]; simpl in Hst; [| discriminate]. by eexists.
  - destruct t as [b | ds]; simpl in Hst; [discriminate |].
    injection Hst as Hst. simpl.
    assert (Hgo : exists xs, children_map2 (tree_map2 f) cs ds = Returned xs).
    { clear -IH Hst. revert ds Hst.
      induction IH as [| c cs' Hc _ IHcs]; intros ds Hst.
      - destruct ds; simpl in Hst; [| discriminate]. by eexists.
      - destruct ds as [| d ds']; simpl in Hst; [discriminate |].
        injection Hst as Hd Hds.
        destruct (Hc _ Hd) as [x Hx]. destruct (IHcs _ Hds) as [xs Hxs].
        simpl. rewrite Hx, Hxs. by eexists. }
    destruct Hgo as [xs ->]. by eexists.
Qed.

(** ** The termination test *)

Section TerminateFacts.
Context {DescentState LineState : Type}.

Implicit Types (self : AbstractGaussNewton DescentState LineState).
Implicit Types (state : _GNState DescentState).

(** The scaled displacement exists when the displacement of the state has
    the structure of [y]. *)
Lemma scaled_diff_returns self (y : Y) state :
  tree_structure (GNState.diff state) = tree_structure y ->
  exists scaled_diff,
    tree_div (GNState.diff state)
      (tree_map (fun yi => (atol self + rtol self * abs yi)%float) y)
      = Returned scaled_diff.
Proof.
  intros Hst. apply tree_map2_returns. by rewrite tree_structure_map.
Qed.

(** The result that [terminate] returns is the result of the state. *)
Lemma terminate_returns self fn y args options state tags :
  tree_structure (GNState.diff state) = tree_structure y ->
  exists stop,
    terminate self fn y args options state tags
      = Returned (stop, GNState.result state).
Proof.
  intros Hst. destruct (scaled_diff_returns self y state Hst) as [scaled Hdiv].
  unfold terminate. rewrite Hdiv. simpl. eexists. do 2 f_equal.
  by destruct (GNState.result state).
Qed.

(** X1.  When the displacement of the state has the structure of [y],
    [terminate] returns, and the result it returns is the result of the
    state, whether that is successful or not; a state with a failure is
    stopped whatever its counter and its objective values are. *)
Theorem terminate_result self fn y args options state tags :
  tree_structure (GNState.diff state) = tree_structure y ->
  exists stop,
    terminate self fn y args options state tags
      = Returned (stop, GNState.result state) /\
    (GNState.result state <> successful -> stop = true).
Proof.
  intros Hst. destruct (scaled_diff_returns self y state Hst) as [scaled Hdiv].
  unfold terminate. rewrite Hdiv. simpl. eexists. split.
  - do 2 f_equal. by destruct (GNState.result state).
  - intros Hfail. apply RESULTS_eqb_neq in Hfail. by rewrite Hfail.
Qed.

(** A successful state with fewer than two steps is never stopped. *)
Lemma terminate_before_two_steps self fn y args options state tags :
  tree_structure (GNState.diff state) = tree_structure y ->
  GNState.result state = successful ->
  GNState.step state < 2 ->
  terminate self fn y args options state tags = Returned (false, successful).
Proof.
  intros Hst Hres Hlt.
  destruct (scaled_diff_returns self y state Hst) as [scaled Hdiv].
  unfold terminate. rewrite Hdiv, Hres. simpl.
  replace (GNState.step state >=? 2) with false
    by (symmetry; rewrite Z.geb_leb; apply Z.leb_gt; lia).
  by rewrite andb_false_r.
Qed.

(** A state without failure is stopped only by the convergence of the
    objective: when the test on the objective fails, [terminate] says to
    go on. *)
Lemma terminate_objective_not_converged self fn y args options state tags :
  tree_structure (GNState.diff state) = tree_structure y ->
  GNState.result state = successful ->
  (abs (GNState.f_val state - GNState.f_prev state)
   / (rtol self * abs (GNState.f_prev state) + atol self) <? 1)%float = false ->
  terminate self fn y args options state tags = Returned (false, successful).
Proof.
  intros Hst Hres Hf.
  destruct (scaled_diff_returns self y state Hst) as [scaled Hdiv].
  unfold terminate. rewrite Hdiv, Hres, Hf. simpl.
  by rewrite andb_false_r.
Qed.
End TerminateFacts.

(** ** The test on the objective in floating point *)

(** A not-a-number on either side of the difference of the objective
    makes the test fail. *)
Lemma objective_test_nan_f_val (rtol atol f_prev : float) :
  (abs (nan - f_prev) / (rtol * abs f_prev + atol) <? 1)%float = false.
Proof.
  rewrite ltb_spec, div_spec, abs_spec, sub_spec.
  change (Prim2SF nan) with S754_nan.
  destruct (Prim2SF f_prev), (Prim2SF (rtol * abs f_prev + atol));
    reflexivity.
Qed.

Lemma objective_test_nan_f_prev (rtol atol f_val : float) :
  (abs (f_val - nan) / (rtol * abs nan + atol) <? 1)%float = false.
Proof.
  rewrite ltb_spec, div_spec, abs_spec, sub_spec.
  change (Prim2SF nan) with S754_nan.
  destruct (Prim2SF f_val), (Prim2SF (rtol * abs nan + atol)); reflexivity.
Qed.

(** Against a previous objective of [+infinity] the difference is
    infinite or not a number, and so is the scale: the quotient is not a
    number and the test fails, for all tolerances. *)
Lemma objective_test_infinite_f_prev (rtol atol f_val : float) :
  (abs (f_val - infinity) / (rtol * abs infinity + atol) <? 1)%float = false.
Proof.
  rewrite ltb_spec, div_spec, abs_spec, sub_spec, add_spec, mul_spec, abs_spec.
  change (Prim2SF infinity) with (S754_infinity false).
  destruct (Prim2SF f_val) as [[|] | [|] | | [|] m1 e1],
           (Prim2SF rtol) as [[|] | [|] | | [|] m2 e2],
           (Prim2SF atol) as [[|] | [|] | | [|] m3 e3]; reflexivity.
Qed.

(** With both tolerances at zero the scale is zero or not a number: the
    quotient is infinite or not a number and the test fails. *)
Lemma objective_test_zero_tolerances (f_val f_prev : float) :
  (abs (f_val - f_prev) / (zero * abs f_prev + zero) <? 1)%float = false.
Proof.
  rewrite ltb_spec, div_spec, abs_spec, sub_spec, add_spec, mul_spec, abs_spec.
  change (Prim2SF zero) with (S754_zero false).
  generalize (SF64sub (Prim2SF f_val) (Prim2SF f_prev)). intros d.
  destruct d as [s1 | s1 | | s1 m1 e1],
           (Prim2SF f_prev) as [s2 | s2 | | s2 m2 e2]; reflexivity.
Qed.

Section TerminateFloats.
Context {DescentState LineState : Type}.

Implicit Types (self : AbstractGaussNewton DescentState LineState).
Implicit Types (state : _GNState DescentState).

(** X3.  A state without failure whose objective value, or previous
    objective value, is not a number is never stopped by [terminate],
    however small its last displacement is and however many steps were
    made. *)
Theorem terminate_nan_objective self fn y args options state tags :
  tree_structure (GNState.diff state) = tree_structure y ->
  GNState.result state = successful ->
  GNState.f_val state = nan \/ GNState.f_prev state = nan ->
  terminate self fn y args options state tags = Returned (false, successful).
Proof.
  intros Hst Hres Hnan. apply terminate_objective_not_converged; [done .. |].
  destruct Hnan as [-> | ->].
  - apply objective_test_nan_f_val.
  - apply objective_test_nan_f_prev.
Qed.

(** X4.  A state without failure whose previous objective value is
    [+infinity], the value that [init] gives it, is never stopped by
    [terminate], for all tolerances. *)
Theorem terminate_infinite_f_prev self fn y args options state tags :
  tree_structure (GNState.diff state) = tree_structure y ->
  GNState.result state = successful ->
  GNState.f_prev state = infinity ->
  terminate self fn y args options state tags = Returned (false, successful).
Proof.
  intros Hst Hres Hinf. apply terminate_objective_not_converged; [done .. |].
  rewrite Hinf. apply objective_test_infinite_f_prev.
Qed.

(** X5.  With [rtol = 0.0] and [atol = 0.0] a state without failure is
    never stopped by [terminate]: convergence cannot be declared. *)
Theorem terminate_zero_tolerances self fn y args options state tags :
  rtol self = zero ->
  atol self = zero ->
  tree_structure (GNState.diff state) = tree_structure y ->
  GNState.result state = successful ->
  terminate self fn y args options state tags = Returned (false, successful).
Proof.
  intros Hrtol Hatol Hst Hres.
  apply terminate_objective_not_converged; [done .. |].
  rewrite Hrtol, Hatol. apply objective_test_zero_tolerances.
Qed.
End TerminateFloats.

(** ** More on the outer step *)

Section StepExtras.
Context {DescentState LineState : Type}.
Context (compute_jac_residual :
  Fn -> Y -> Args -> Out * JacobianLinearOperator float * Aux).

Implicit Types (self : AbstractGaussNewton DescentState LineState).
Implicit Types (state new_state : _GNState DescentState).

(** X6.  The parameter that [step] returns and the displacement that it
    stores both have the PyTree structure (the containers, and the
    leaves in them) of the parameter [y] it was called with. *)
Theorem step_structure self fn y args options state tags new_y new_state aux :
  step compute_jac_residual self fn y args options state tags
    = Returned (new_y, new_state, aux) ->
  tree_structure new_y = tree_structure y /\
  tree_structure (GNState.diff new_state) = tree_structure y.
Proof.
  intros Hstep. apply step_inv in Hstep
    as (sol & f_val & diff & new_aux & status & next_init & y_plus_diff &
        _ & _ & Hadd & -> & _ & ->).
  apply tree_map2_structure in Hadd as [Hsum Hdiff].
  split; [| exact Hdiff]. by destruct (GNState.step state >? 0).
Qed.

(** The state that [step] leaves can be tested for termination with the
    parameter that [step] returns. *)
Lemma step_leaves_testable self fn y args options state tags
    new_y new_state aux :
  step compute_jac_residual self fn y args options state tags
    = Returned (new_y, new_state, aux) ->
  tree_structure (GNState.diff new_state) = tree_structure new_y /\
  GNState.result new_state = successful.
Proof.
  intros Hstep. apply step_inv in Hstep
    as (sol & f_val & diff & new_aux & status & next_init & y_plus_diff &
        _ & _ & Hadd & -> & _ & ->).
  apply tree_map2_structure in Hadd as [Hsum Hdiff].
  split; [| reflexivity]. simpl.
  destruct (GNState.step state >? 0); simpl; congruence.
Qed.

(** X7.  After a call of [step] that returns, [terminate] on the new
    parameter and the new state never raises and never reports a failure:
    its result is [successful], and it does not stop while the new state
    counts fewer than two steps. *)
Theorem step_then_terminate self fn y args options state tags
    new_y new_state aux :
  step compute_jac_residual self fn y args options state tags
    = Returned (new_y, new_state, aux) ->
  exists stop,
    terminate self fn new_y args options new_state tags
      = Returned (stop, successful) /\
    (GNState.step new_state < 2 -> stop = false).
Proof.
  intros Hstep. apply step_leaves_testable in Hstep as [Hst Hres].
  destruct (terminate_returns self fn new_y args options new_state tags Hst)
    as [stop Hterm].
  rewrite Hres in Hterm. exists stop. split; [exact Hterm |].
  intros Hlt.
  rewrite (terminate_before_two_steps self fn new_y args options new_state tags
             Hst Hres Hlt) in Hterm.
  by injection Hterm as <-.
Qed.

(** X10.  The first call of [step], on the state of [init], returns the
    initial parameter unchanged together with the zero-filled auxiliary
    output of [init]; the state it leaves counts one step and has
    [+infinity] as previous objective value. *)
Theorem first_step_returns_start self fn y args options f_struct aux_struct tags
    new_y new_state aux :
  step compute_jac_residual self fn y args options
    (init self fn y args options f_struct aux_struct tags) tags
    = Returned (new_y, new_state, aux) ->
  new_y = y /\
  aux = tree_zeros aux_struct /\
  GNState.step new_state = 1 /\
  GNState.f_prev new_state = infinity.
Proof.
  intros Hstep. apply step_inv in Hstep
    as (? & ? & ? & ? & ? & ? & ? & _ & _ & _ & -> & -> & ->).
  by repeat split.
Qed.

(** X11.  The outer loop cannot stop before [step] was called twice:
    [terminate] returns [(False, successful)] on the state of [init], and
    again on the state that the first call of [step] leaves. *)
Theorem no_stop_before_two_steps self fn y args options f_struct aux_struct tags :
  let state0 := init self fn y args options f_struct aux_struct tags in
  terminate self fn y args options state0 tags = Returned (false, successful) /\
  forall y1 state1 aux,
    step compute_jac_residual self fn y args options state0 tags
      = Returned (y1, state1, aux) ->
    terminate self fn y1 args options state1 tags
      = Returned (false, successful).
Proof.
  cbv zeta. split.
  - apply terminate_before_two_steps; [| reflexivity | simpl; lia].
    apply tree_structure_map.
  - intros y1 state1 aux Hstep.
    destruct (step_leaves_testable _ _ _ _ _ _ _ _ _ _ Hstep) as [Hst Hres].
    apply terminate_before_two_steps; [exact Hst | exact Hres |].
    apply step_inv in Hstep
      as (? & ? & ? & ? & ? & ? & ? & _ & _ & _ & _ & _ & ->).
    reflexivity.
Qed.

(** X12.  In the first two calls of [step], those with a counter of at
    most 1, the sub-iteration does not depend on the [next_init], the
    objective values, the displacement, the result or the auxiliary
    output of the state: two states that agree on the counter, the
    descent state, the vector and the operator have the same
    sub-iteration. *)
Theorem first_calls_ignore_carried_values self fn y args options state state' :
  GNState.step state <= 1 ->
  GNState.step state' = GNState.step state ->
  GNState.descent_state state' = GNState.descent_state state ->
  GNState.vector state' = GNState.vector state ->
  GNState.operator state' = GNState.operator state ->
  line_sol self fn y args options state' = line_sol self fn y args options state.
Proof.
  intros Hle Hstep Hds Hvec Hop.
  unfold line_sol, problem_1d, line_search_options, line_search_init.
  rewrite Hstep, Hds, Hvec, Hop.
  replace (GNState.step state <=? 1) with true
    by (symmetry; apply Z.leb_le; lia).
  replace (GNState.step state >? 1) with false
    by (symmetry; rewrite Z.gtb_ltb; apply Z.ltb_ge; lia).
  reflexivity.
Qed.

(** X13.  The auxiliary output of the evaluation of the residual at the
    new parameter is thrown away: two evaluators that give the same
    residual vector and operator everywhere make [step] return the same,
    whatever auxiliary outputs they give. *)
Theorem step_discards_evaluation_aux
    (compute_jac_residual' :
       Fn -> Y -> Args -> Out * JacobianLinearOperator float * Aux)
    self fn y args options state tags :
  (forall fn y args,
     (compute_jac_residual' fn y args).1 = (compute_jac_residual fn y args).1) ->
  step compute_jac_residual' self fn y args options state tags
  = step compute_jac_residual self fn y args options state tags.
Proof.
  intros Hsame. unfold step.
  destruct (line_sol self fn y args options state) as [sol | e]; simpl;
    [| reflexivity].
  destruct (Solution.aux sol) as [[[[f_val diff] new_aux] status] next_init].
  destruct (tree_add y diff) as [y_plus_diff | e]; simpl; [| reflexivity].
  destruct (tree_where (GNState.step state >? 0) y_plus_diff y)
    as [new_y | e]; simpl; [| reflexivity].
  specialize (Hsame fn new_y args).
  destruct (compute_jac_residual' fn new_y args) as [[vector' operator'] a'].
  destruct (compute_jac_residual fn new_y args) as [[vector operator] a].
  simpl in Hsame. by injection Hsame as -> ->.
Qed.
End StepExtras.

(** ** More on initialisation *)

Section InitExtras.
Context {DescentState LineState : Type}.

Implicit Types (self : AbstractGaussNewton DescentState LineState).

(** X14.  The placeholders of [init] have the structures of the real
    values they stand for: the vector that of [f_struct], the auxiliary
    output that of [aux_struct], the displacement and the point of the
    operator that of [y], the arguments of the operator that of
    [args]. *)
Theorem init_structure self fn y args options f_struct aux_struct tags :
  let state := init self fn y args options f_struct aux_struct tags in
  tree_structure (GNState.vector state) = tree_structure f_struct /\
  tree_structure (GNState.aux state) = tree_structure aux_struct /\
  tree_structure (GNState.diff state) = tree_structure y /\
  tree_structure (jac_x (GNState.operator state)) = tree_structure y /\
  tree_structure (jac_args (GNState.operator state)) = tree_structure args.
Proof.
  cbv zeta. unfold init, tree_zeros, tree_full_like. simpl.
  repeat split;
    repeat (etransitivity; [apply tree_structure_map |]); reflexivity.
Qed.
End InitExtras.

(** ** The variants *)

(** [LevenbergMarquardt] does not use its arguments
    [backtrack_slope] and [decrease_factor]: the solver is the same
    whatever they are, given or left at their defaults. *)
Remark LevenbergMarquardt_ignores_slope_and_factor
    {DirectState TrustState : Type}
    (DirectIterativeDual : bool -> Descent.AbstractDescent DirectState)
    (ClassicalTrustRegion : LineSearch.AbstractLineSearch TrustState)
    (max_norm : PyTree float -> float)
    (rtol atol : float) (norm : option (PyTree float -> float))
    (backtrack_slope decrease_factor : option float) :
  LevenbergMarquardt DirectIterativeDual ClassicalTrustRegion max_norm
    rtol atol norm backtrack_slope decrease_factor
  = LevenbergMarquardt DirectIterativeDual ClassicalTrustRegion max_norm
      rtol atol norm None None.
Proof. reflexivity. Qed.

(** ** The further properties at the concrete problem *)

Lemma terminate_result_witness :
  tree_structure (GNState.diff Edge.failed_state) = tree_structure y2 /\
  terminate gauss_newton fn y2 args options Edge.failed_state tags
    = Returned (true, linear_solve_failure).
Proof.
  assert (Hst : tree_structure (GNState.diff Edge.failed_state)
                = tree_structure y2) by reflexivity.
  split; [exact Hst |].
  destruct (terminate_result gauss_newton fn y2 args options Edge.failed_state
              tags Hst) as (stop & Hterm & Hfail).
  rewrite Hterm, Hfail; [reflexivity | discriminate].
Defined.

Lemma terminate_nan_objective_witness :
  terminate gauss_newton fn y2 args options state3 tags
    = Returned (true, successful) /\
  terminate gauss_newton fn y2 args options
    (Edge.with_objective nan 0%float) tags = Returned (false, successful).
Proof.
  split; [vm_compute; reflexivity |].
  apply terminate_nan_objective; [reflexivity | reflexivity |].
  left. reflexivity.
Defined.

Lemma terminate_infinite_f_prev_witness :
  terminate gauss_newton fn y2 args options
    (Edge.with_objective infinity infinity) tags = Returned (false, successful).
Proof. apply terminate_infinite_f_prev; reflexivity. Defined.

Lemma terminate_zero_tolerances_witness :
  terminate gauss_newton fn y2 args options state3 tags
    = Returned (true, successful) /\
  terminate Edge.zero_tolerance fn y2 args options state3 tags
    = Returned (false, successful).
Proof.
  split; [vm_compute; reflexivity |].
  apply terminate_zero_tolerances; reflexivity.
Defined.

Lemma step_structure_witness :
  step compute_jac_residual gauss_newton fn y0 args options state1 tags
    = Returned (y2, state2, Node [Leaf (-1)%float]) /\
  tree_structure y2 = tree_structure y0 /\
  tree_structure (GNState.diff state2) = tree_structure y0.
Proof.
  assert (Hstep : step compute_jac_residual gauss_newton fn y0 args options
                    state1 tags = Returned (y2, state2, Node [Leaf (-1)%float]))
    by (vm_compute; reflexivity).
  split; [exact Hstep |].
  exact (step_structure compute_jac_residual gauss_newton fn y0 args options
           state1 tags _ _ _ Hstep).
Defined.

Lemma step_then_terminate_witness :
  step compute_jac_residual failing fn y0 args options failing_state0 tags
    = Returned (y0, state1, Node [Leaf 0%float]) /\
  terminate failing fn y0 args options state1 tags
    = Returned (false, successful).
Proof.
  assert (Hstep : step compute_jac_residual failing fn y0 args options
                    failing_state0 tags
                  = Returned (y0, state1, Node [Leaf 0%float]))
    by (vm_compute; reflexivity).
  split; [exact Hstep |].
  destruct (step_then_terminate compute_jac_residual failing fn y0 args options
              failing_state0 tags _ _ _ Hstep) as (stop & Hterm & Hearly).
  rewrite Hterm, Hearly; [reflexivity | simpl; lia].
Defined.

Lemma first_step_returns_start_witness :
  step compute_jac_residual gauss_newton fn y0 args options
    (init gauss_newton fn y0 args options f_struct aux_struct tags) tags
    = Returned (y0, state1, Node [Leaf 0%float]) /\
  Node [Leaf 0%float] = tree_zeros aux_struct /\
  GNState.step state1 = 1 /\
  GNState.f_prev state1 = infinity.
Proof.
  assert (Hstep : step compute_jac_residual gauss_newton fn y0 args options
                    (init gauss_newton fn y0 args options f_struct aux_struct
                       tags) tags
                  = Returned (y0, state1, Node [Leaf 0%float]))
    by (vm_compute; reflexivity).
  split; [exact Hstep |].
  exact (proj2 (first_step_returns_start compute_jac_residual gauss_newton fn y0
                  args options f_struct aux_struct tags _ _ _ Hstep)).
Defined.

Lemma no_stop_before_two_steps_witness :
  terminate gauss_newton fn y0 args options state0 tags
    = Returned (false, successful) /\
  terminate gauss_newton fn y0 args options state1 tags
    = Returned (false, successful).
Proof.
  destruct (no_stop_before_two_steps compute_jac_residual gauss_newton fn y0
              args options f_struct aux_struct tags) as [Hinit Hfirst].
  split; [exact Hinit |].
  apply (Hfirst y0 state1 (Node [Leaf 0%float])). vm_compute. reflexivity.
Defined.

Lemma first_calls_ignore_carried_values_witness :
  GNState.next_init Edge.state1_other = 8%float /\
  GNState.next_init state1 = 2%float /\
  line_sol gauss_newton fn y0 args options Edge.state1_other
  = line_sol gauss_newton fn y0 args options state1.
Proof.
  split; [reflexivity |]. split; [reflexivity |].
  apply first_calls_ignore_carried_values; [simpl; lia | reflexivity ..].
Defined.

Lemma step_discards_evaluation_aux_witness :
  (Edge.compute_jac_residual_no_aux fn y2 args).2 = Node [] /\
  (compute_jac_residual fn y2 args).2 = Node [Leaf 3%float] /\
  step Edge.compute_jac_residual_no_aux gauss_newton fn y0 args options state1 tags
  = step compute_jac_residual gauss_newton fn y0 args options state1 tags.
Proof.
  split; [reflexivity |]. split; [reflexivity |].
  apply step_discards_evaluation_aux. intros fn' y' args'. reflexivity.
Defined.
